(** * export-kobo: a shallow embedding of [export-kobo.py]

    The script reads the annotations of a Kobo e-reader database and prints
    them as a Markdown document, one heading per chapter.

    Conventions of the embedding.
    - A Python [str] is a list of Unicode code points ([str := list N]), so
      that [str.strip], slicing and padding count characters as Python does.
    - A fetched row is a record with one field per selected column, in the
      order of the SELECT list; a TEXT column is [option str], an INTEGER
      column [option Z], the REAL column [option float]; [None] is SQL NULL.
    - [print], [sys.exit] and uncaught exceptions are the effects of the
      script: a computation returns the events it emitted and either a value
      or the reason it stopped.
    - [repr] of a float is Python's and is not modelled: it is the variable
      [float_repr] of the section that holds the program. *)

From Stdlib Require Import ZArith NArith List Bool String Ascii Lia.
From Stdlib Require Import DecimalString Sorted Permutation.
From Stdlib Require Import Floats.PrimFloat.
Import ListNotations.

Local Open Scope Z_scope.

(* ===================================================================== *)
(** ** Python strings *)
(* ===================================================================== *)

Definition str := list N.

(** An ASCII literal of the source as code points. *)
Definition lit (s : string) : str :=
  map N_of_ascii (list_ascii_of_string s).

(** ["\n"] *)
Definition nl : str := [10%N].

(** [str.isspace] on one code point (CPython's [_PyUnicode_IsWhitespace]). *)
Definition isspace (c : N) : bool :=
  ((9 <=? c) && (c <=? 13) || (28 <=? c) && (c <=? 32)
   || (c =? 133) || (c =? 160) || (c =? 5760)
   || (8192 <=? c) && (c <=? 8202)
   || (c =? 8232) || (c =? 8233) || (c =? 8239) || (c =? 8287)
   || (c =? 12288))%N.

Fixpoint lstrip (s : str) : str :=
  match s with
  | [] => []
  | c :: r => if isspace c then lstrip r else s
  end.

Definition rstrip (s : str) : str := rev (lstrip (rev s)).

(** [s.strip()] removes white space at both ends. *)
Definition strip (s : str) : str := rstrip (lstrip s).

(** [str(n)] for an [int]. *)
Definition str_of_Z (z : Z) : str := lit (NilZero.string_of_int (Z.to_int z)).

(** [f"{x}"] for a value that is a [str] or [None]. *)
Definition str_of_opt (o : option str) : str :=
  match o with
  | Some s => s
  | None => lit "None"
  end.

(** Truth value of an object that is a [str] or [None]. *)
Definition truthy (o : option str) : bool :=
  match o with
  | Some (_ :: _) => true
  | _ => false
  end.

Definition str_eqb (a b : str) : bool :=
  if list_eq_dec N.eq_dec a b then true else false.

(** [a == b] for two objects that are each a [str] or [None]. *)
Definition opt_eqb (a b : option str) : bool :=
  match a, b with
  | Some x, Some y => str_eqb x y
  | None, None => true
  | _, _ => false
  end.

(** [x if x is not None else d] *)
Definition or_default {A} (x : option A) (d : A) : A :=
  match x with
  | Some v => v
  | None => d
  end.

(** A number that is an [int] or a [float]. *)
Inductive num :=
| PInt (z : Z)
| PFloat (f : float).

(* ===================================================================== *)
(** ** Rows of the three queries *)
(* ===================================================================== *)

(** One row of [QUERY_ITEMS_V175] / [QUERY_ITEMS_V174]; the field of
    position [i] is [values[i]]. *)
Record item_row := {
  VolumeID : option str;          (* 0 *)
  Text : option str;              (* 1 *)
  Annotation : option str;        (* 2 *)
  DateCreated : option str;       (* 3 *)
  DateModified : option str;      (* 4 *)
  ChapterProgress : option float; (* 5 *)
  BookTitle : option str;         (* 6 *)
  Chapter : option str;           (* 7 *)
  Author : option str;            (* 8 *)
  BookmarkID : option str;        (* 9 *)
  StartOffset : option Z;         (* 10 *)
  VolumeIndex : option Z;         (* 11 *)
  Color : option Z                (* 12 *)
}.

(** One row of [QUERY_BOOKS]. *)
Record book_row := {
  b_VolumeID : option str;  (* 0 *)
  b_Title : option str;     (* 1 *)
  b_Author : option str;    (* 2 *)
  b_Items : Z               (* 3 *)
}.

(** One row of [QUERY_DB_VERSION]. *)
Record version_row := { version : Z }.

(* ===================================================================== *)
(** ** class Book *)
(* ===================================================================== *)

Record Book := {
  bk_volumeid : option str;
  title : option str;
  author : option str;
  itemscount : Z
}.

Definition Book_init (values : book_row) : Book :=
  {| bk_volumeid := b_VolumeID values;
     title := b_Title values;
     author := b_Author values;
     itemscount := b_Items values |}.

Definition to_markdown (self : Book) : str :=
  lit "---" ++ nl ++ lit "title: " ++ str_of_opt (title self) ++ nl
  ++ lit "author: " ++ str_of_opt (author self) ++ nl
  ++ lit "---" ++ nl
  ++ lit "# " ++ [34%N] ++ str_of_opt (title self) ++ [34%N]
  ++ lit " by " ++ str_of_opt (author self) ++ nl.

(* ===================================================================== *)
(** ** class Item *)
(* ===================================================================== *)

Inductive kind_t := ANNOTATION | BOOKMARK | HIGHLIGHT.

(** The value of the class constant, as the f-string prints it. *)
Definition kind_str (k : kind_t) : str :=
  match k with
  | ANNOTATION => lit "annotation"
  | BOOKMARK => lit "bookmark"
  | HIGHLIGHT => lit "highlight"
  end.

Record Item := {
  volumeid : option str;
  text : option str;
  annotation : option str;
  datecreated : str;
  chapter_progress : num;
  chapter : option str;
  start_offset : Z;
  volume_index : Z;
  color : Z;
  kind : kind_t
}.

(** [Item.__init__(self, values, book)]; [book] is not used by the body. *)
Definition Item_init (values : item_row) (book : option Book) : Item :=
  let text_ :=
    if truthy (Text values)
    then option_map (fun s => rstrip (strip s)) (Text values)
    else None in
  let annotation_ := Annotation values in
  {| volumeid := VolumeID values;
     text := text_;
     annotation := annotation_;
     datecreated := or_default (DateCreated values) (lit "1970-01-01T00:00:00.000");
     chapter_progress :=
       match ChapterProgress values with
       | Some f => PFloat f
       | None => PInt 0
       end;
     chapter := Chapter values;
     start_offset := or_default (StartOffset values) 0;
     volume_index := or_default (VolumeIndex values) 0;
     color := or_default (Color values) 0;
     kind :=
       if truthy text_ && truthy annotation_ then ANNOTATION
       else if truthy text_ then HIGHLIGHT
       else BOOKMARK |}.

(* ===================================================================== *)
(** ** Effects: output, [sys.exit] and exceptions *)
(* ===================================================================== *)

Inductive exception := IndexError | KeyError | ValueError.

Inductive event :=
| Stdout (s : str)       (* print(s) *)
| Stderr (s : str)       (* print(s, file=sys.stderr) *)
| PrintHelp.             (* parser.print_help() *)

Inductive halt :=
| SystemExit (code : Z)
| Raised (e : exception).

(** A computation: the events emitted so far, then a value or a stop. *)
Definition io (A : Type) : Type := (list event * (halt + A))%type.

Definition ret {A} (x : A) : io A := ([], inr x).

Definition bind {A B} (m : io A) (k : A -> io B) : io B :=
  match m with
  | (out, inl h) => (out, inl h)
  | (out, inr x) => let '(out', r) := k x in (out ++ out', r)
  end.

Declare Scope io_scope.
Delimit Scope io_scope with io.
Notation "x <- m ;; k" := (bind m (fun x => k))
  (at level 61, m at next level, right associativity) : io_scope.
Notation "m ;; k" := (bind m (fun _ => k))
  (at level 61, right associativity) : io_scope.
Local Open Scope io_scope.

Definition print (s : str) : io unit := ([Stdout s], inr tt).
Definition eprint (s : str) : io unit := ([Stderr s], inr tt).
Definition print_help : io unit := ([PrintHelp], inr tt).
Definition sys_exit {A} (code : Z) : io A := ([], inl (SystemExit code)).
Definition raise {A} (e : exception) : io A := ([], inl (Raised e)).

Fixpoint mapM {A B} (f : A -> io B) (l : list A) : io (list B) :=
  match l with
  | [] => ret []
  | x :: r => y <- f x ;; ys <- mapM f r ;; ret (y :: ys)
  end.

Fixpoint foldM {A B} (f : B -> A -> io B) (l : list A) (acc : B) : io B :=
  match l with
  | [] => ret acc
  | x :: r => acc' <- f acc x ;; foldM f r acc'
  end.

(** What the operating system sees of a run: the output and the exit status.
    An exception nobody catches ends the interpreter with status 1. *)
Definition exit_code {A} (m : io A) : Z :=
  match snd m with
  | inr _ => 0
  | inl (SystemExit c) => c
  | inl (Raised _) => 1
  end.

Definition output {A} (m : io A) : list event := fst m.

(* ===================================================================== *)
(** ** The database file *)
(* ===================================================================== *)

Inductive shape := VersionRows | BookRows | ItemRows.

Definition row (sh : shape) : Type :=
  match sh with
  | VersionRows => version_row
  | BookRows => book_row
  | ItemRows => item_row
  end.

(** The file system and SQLite: whether a path exists, and what
    [connect; execute; fetchall] gives for a query text on a path, the rows
    or the message of the exception. *)
Record World := {
  path_exists : str -> bool;
  execute : forall sh : shape, str -> string -> str + list (row sh)
}.

(* ===================================================================== *)
(** ** Sorting and dictionaries *)
(* ===================================================================== *)

Section SortBy.
Context {A : Type} (key : A -> Z).

Fixpoint insert_by (x : A) (l : list A) : list A :=
  match l with
  | [] => [x]
  | y :: r => if key x <=? key y then x :: l else y :: insert_by x r
  end.

(** A stable sort by [key], ascending: what [sorted] and [list.sort]
    compute when the keys are integers. *)
Fixpoint sort_by (l : list A) : list A :=
  match l with
  | [] => []
  | x :: r => insert_by x (sort_by r)
  end.
End SortBy.

(** [sorted(l, key=key)]: the keys are computed first, one call per element
    in order, then the elements are sorted by them. *)
Definition py_sorted {A} (key : A -> io Z) (l : list A) : io (list A) :=
  ks <- mapM key l ;;
  ret (map fst (sort_by snd (combine l ks))).

(** [min(l)] *)
Definition py_min (l : list Z) : io Z :=
  match l with
  | [] => raise ValueError
  | x :: r => ret (fold_left Z.min r x)
  end.

(** A [dict] with keys that are [str] or [None], in insertion order. *)
Definition dict (V : Type) : Type := list (option str * V).

Fixpoint dict_get {V} (d : dict V) (k : option str) : option V :=
  match d with
  | [] => None
  | (k', v) :: r => if opt_eqb k' k then Some v else dict_get r k
  end.

(** [d[k]] *)
Definition getitem {V} (d : dict V) (k : option str) : io V :=
  match dict_get d k with
  | Some v => ret v
  | None => raise KeyError
  end.

(** [d[k] = v] *)
Fixpoint dict_set {V} (d : dict V) (k : option str) (v : V) : dict V :=
  match d with
  | [] => [(k, v)]
  | (k', v') :: r =>
      if opt_eqb k' k then (k', v) :: r else (k', v') :: dict_set r k v
  end.

Definition dict_keys {V} (d : dict V) : list (option str) := map fst d.

(* ===================================================================== *)
(** ** The program *)
(* ===================================================================== *)

Section Program.

(** [repr] of a Python float, as an f-string prints it. *)
Variable float_repr : float -> str.

Definition str_of_num (n : num) : str :=
  match n with
  | PInt z => str_of_Z z
  | PFloat f => float_repr f
  end.

(** *** Item.markdown *)

(** The text of [debug_info] when [debug] is set. *)
Definition debug_info_of (self : Item) : str :=
  nl ++ lit ">" ++ nl ++ lit "> **Debug:** kind=" ++ kind_str (kind self)
  ++ lit ", volume_index=" ++ str_of_Z (volume_index self)
  ++ lit ", " ++ lit "start_offset=" ++ str_of_Z (start_offset self)
  ++ lit ", chapter_progress=" ++ str_of_num (chapter_progress self)
  ++ lit ", " ++ lit "datecreated=" ++ datecreated self
  ++ lit ", color=" ++ str_of_Z (color self).

(** [bool(colors)] for a list or [None]. *)
Definition truthy_list {A} (l : option (list A)) : bool :=
  match l with
  | Some (_ :: _) => true
  | _ => false
  end.

Definition markdown (self : Item) (debug : bool) (colors : option (list str))
  : str :=
  let debug_info := if debug then debug_info_of self else [] in
  let color_prefix :=
    if truthy_list colors && (0 <=? color self)
       && (color self <? Z.of_nat (List.length (or_default colors [])))
    then nth (Z.to_nat (color self)) (or_default colors []) [] ++ lit " "
    else [] in
  match kind self with
  | ANNOTATION =>
      lit "> " ++ color_prefix ++ str_of_opt (text self) ++ debug_info
      ++ nl ++ nl ++ lit "- " ++ str_of_opt (annotation self) ++ nl ++ nl
  | HIGHLIGHT =>
      lit "> " ++ color_prefix ++ str_of_opt (text self) ++ debug_info
      ++ nl ++ nl
  | BOOKMARK => []
  end.

(** *** class ExportKobo *)

Definition QUERY_DB_VERSION : string := "SELECT version FROM DbVersion;".

Definition QUERY_ITEMS_V175 : string := "
        SELECT b.VolumeID, b.Text, b.Annotation, b.DateCreated, b.DateModified, b.ChapterProgress,
               c.BookTitle, c.Title as Chapter, c.Attribution as Author, b.BookmarkID, b.StartOffset,
               c.VolumeIndex, b.Color
        FROM Bookmark b INNER JOIN content c ON b.ContentID = c.ContentID 
        GROUP BY b.BookmarkID ORDER BY c.VolumeIndex ASC, b.StartOffset ASC;
    ".

Definition QUERY_ITEMS_V174 : string := "
        SELECT b.VolumeID, b.Text, b.Annotation, b.DateCreated, b.DateModified, b.ChapterProgress,
               c.BookTitle, c.Title as Chapter, c.Attribution as Author, b.BookmarkID, b.StartOffset,
               c.VolumeIndex, b.Color
        FROM Bookmark b LEFT JOIN content c ON b.ContentID = c.ContentID 
        GROUP BY b.BookmarkID ORDER BY c.VolumeIndex ASC, b.StartOffset ASC;
    ".

Definition QUERY_BOOKS : string := "
        SELECT DISTINCT b.VolumeID, c.Title, c.Attribution as Author,
               (SELECT COUNT(*) FROM Bookmark b2 WHERE b2.VolumeID = b.VolumeID) AS Items
        FROM Bookmark b INNER JOIN content c ON b.VolumeID = c.ContentID
        ORDER BY c.Title;
    ".

Record ExportKobo := {
  db_path : str;
  db_version : Z;
  books : list Book
}.

Variable w : World.

(** [_query(self, query)], for a query whose rows have shape [sh]. *)
Definition _query {sh : shape} (db_path : str) (query : string)
  : io (list (row sh)) :=
  if negb (path_exists w db_path) then
    eprint (lit "Error: Cannot read " ++ db_path) ;;
    sys_exit 1
  else
    match execute w sh db_path query with
    | inr data => ret data
    | inl e =>
        eprint (lit "Error reading database: " ++ e) ;;
        sys_exit 1
    end.

Definition _get_db_version (db_path : str) : io Z :=
  result <- _query (sh := VersionRows) db_path QUERY_DB_VERSION ;;
  match result with
  | r :: _ => ret (version r)
  | [] => raise IndexError
  end.

Definition _load_books (db_path : str) : io (list Book) :=
  rows <- _query (sh := BookRows) db_path QUERY_BOOKS ;;
  ret (map Book_init rows).

Definition ExportKobo_init (db_path : str) : io ExportKobo :=
  v <- _get_db_version db_path ;;
  bs <- _load_books db_path ;;
  ret {| db_path := db_path; db_version := v; books := bs |}.

(** [s.ljust(width)], the padding of the format [:<width]. *)
Definition ljust (width : nat) (s : str) : str :=
  s ++ repeat 32%N (width - List.length s).

(** [enumerate(l, start=1)] *)
Definition enumerate1 {A} (l : list A) : list (Z * A) :=
  combine (map Z.of_nat (seq 1 (List.length l))) l.

Definition list_books (self : ExportKobo) : io unit :=
  print (ljust 4 (lit "ID") ++ lit " " ++ ljust 30 (lit "AUTHOR")
         ++ lit " TITLE") ;;
  print (repeat 45%N 80) ;;
  foldM (fun (_ : unit) '(i, book) =>
           let author_ :=
             firstn 30 (if truthy (author book)
                        then str_of_opt (author book)
                        else lit "Unknown") in
           print (ljust 4 (str_of_Z i) ++ lit " " ++ ljust 30 author_
                  ++ lit " " ++ str_of_opt (title book)))
        (enumerate1 (books self)) tt.

(** Lines 149-153: the items of each chapter, in a dict. *)
Definition group_step (chapters : dict (list Item)) (item : Item)
  : io (dict (list Item)) :=
  let chapters :=
    match dict_get chapters (chapter item) with
    | None => dict_set chapters (chapter item) []
    | Some _ => chapters
    end in
  l <- getitem chapters (chapter item) ;;
  ret (dict_set chapters (chapter item) (l ++ [item])).

Definition group_by_chapter (items : list Item) : io (dict (list Item)) :=
  foldM group_step items [].

(** Line 156: the chapters by the least [volume_index] of their items. *)
Definition sort_chapters (chapters : dict (list Item))
  : io (list (option str)) :=
  py_sorted (fun ch => l <- getitem chapters ch ;;
                       py_min (map volume_index l))
            (dict_keys chapters).

(** Lines 159-160: every list of the dict sorted by [start_offset]. *)
Definition sort_items (chapters : dict (list Item)) : dict (list Item) :=
  map (fun '(ch, l) => (ch, sort_by start_offset l)) chapters.

(** Lines 163-166: the heading and the items of every chapter, appended
    to [output]. *)
Definition render_chapters (chapters : dict (list Item))
  (sorted_chapters : list (option str)) (debug : bool)
  (colors : option (list str)) (output : str) : io str :=
  foldM (fun output chapter =>
           let output :=
             output ++ nl ++ lit "### " ++ str_of_opt chapter ++ nl ++ nl in
           l <- getitem chapters chapter ;;
           ret (fold_left (fun output item =>
                             output ++ markdown item debug colors)
                          l output))
        sorted_chapters output.

Definition select_query (version : Z) : string :=
  if version =? 175 then QUERY_ITEMS_V175 else QUERY_ITEMS_V174.

Definition export_markdown (self : ExportKobo) (book_id : Z) (debug : bool)
  (colors : option (list str)) : io unit :=
  (if (book_id <? 1) || (book_id >? Z.of_nat (List.length (books self)))
   then
     eprint (lit "Error: bookid must be between 1 and "
             ++ str_of_Z (Z.of_nat (List.length (books self)))) ;;
     sys_exit 1
   else ret tt) ;;
  book <- match nth_error (books self) (Z.to_nat (book_id - 1)) with
          | Some b => ret b
          | None => raise IndexError
          end ;;
  let dict_books :=
    fold_left (fun d b => dict_set d (bk_volumeid b) b) (books self) [] in
  let query := select_query (db_version self) in
  rows <- _query (sh := ItemRows) (db_path self) query ;;
  let items :=
    map (fun r => Item_init r (dict_get dict_books (VolumeID r))) rows in
  let items :=
    filter (fun i => opt_eqb (volumeid i) (bk_volumeid book)) items in
  chapters <- group_by_chapter items ;;
  sorted_chapters <- sort_chapters chapters ;;
  let chapters := sort_items chapters in
  output <- render_chapters chapters sorted_chapters debug colors
              (to_markdown book) ;;
  print output.

(** *** main *)

(** The namespace that [parser.parse_args()] returns. *)
Record Args := {
  a_db : str;
  a_list : bool;
  a_bookid : option Z;
  a_debug : bool;
  a_colors : option str;
  a_no_colors : bool
}.

(** [s.split(sep)] for a separator of one character. *)
Fixpoint split (sep : N) (s : str) : list str :=
  match s with
  | [] => [[]]
  | c :: r =>
      if (c =? sep)%N then [] :: split sep r
      else match split sep r with
           | h :: t => (c :: h) :: t
           | [] => [[c]]
           end
  end.

(** The four default labels, as the source file spells them (each is the
    UTF-8 encoding of a coloured-circle emoji read as Windows-1252). *)
Definition default_colors : list str :=
  [ [240; 376; 376; 161]; [240; 376; 8221; 180];
    [240; 376; 8221; 181]; [240; 376; 376; 162] ]%N.

Definition main (args : Args) : io unit :=
  (if negb (a_list args) && (match a_bookid args with None => true | Some _ => false end)
   then print_help ;; sys_exit 1
   else ret tt) ;;
  let colors :=
    if a_no_colors args then None
    else if truthy (a_colors args)
         then Some (map strip (split 44%N (or_default (a_colors args) [])))
         else Some default_colors in
  kobo <- ExportKobo_init (a_db args) ;;
  if a_list args then list_books kobo
  else match a_bookid args with
       | Some bookid =>
           if negb (bookid =? 0)
           then export_markdown kobo bookid (a_debug args) colors
           else ret tt
       | None => ret tt
       end.

End Program.

(* ===================================================================== *)
(** ** Notions used to state the properties *)
(* ===================================================================== *)

(** The three-case rule for the kind of an item, from whether it has a
    text and whether it has an annotation. *)
Definition classify (has_text has_annotation : bool) : kind_t :=
  match has_text, has_annotation with
  | true, true => ANNOTATION
  | true, false => HIGHLIGHT
  | false, _ => BOOKMARK
  end.

(** The distinct elements of a list, each at its first occurrence. *)
Fixpoint first_seen (l : list (option str)) : list (option str) :=
  match l with
  | [] => []
  | x :: r => x :: filter (fun y => negb (opt_eqb x y)) (first_seen r)
  end.

(** The items of [items] whose chapter is [ch], in their order. *)
Definition of_chapter (ch : option str) (items : list Item) : list Item :=
  filter (fun i => opt_eqb ch (chapter i)) items.

(** [m] is the least element of [l]. *)
Definition is_min (m : Z) (l : list Z) : Prop :=
  In m l /\ Forall (fun x => m <= x) l.

(** The least element of [l], and 0 for the empty list. *)
Definition least (l : list Z) : Z :=
  match l with
  | [] => 0
  | x :: r => fold_left Z.min r x
  end.

(** Ordered by a key, ascending. *)
Definition ascending {A} (key : A -> Z) (l : list A) : Prop :=
  StronglySorted (fun a b => key a <= key b) l.

(** The elements of [l] whose key is [k], in their order. *)
Definition with_key {A} (key : A -> Z) (k : Z) (l : list A) : list A :=
  filter (fun a => key a =? k) l.

(** [l'] is [l] sorted by [key], elements of equal key keeping their
    relative order. *)
Definition stable_sorted {A} (key : A -> Z) (l l' : list A) : Prop :=
  ascending key l' /\ forall k, with_key key k l' = with_key key k l.

Fixpoint startswith (s p : str) : bool :=
  match p, s with
  | [], _ => true
  | c :: p', d :: s' => (c =? d)%N && startswith s' p'
  | _ :: _, [] => false
  end.

Definition endswith (s suffix : str) : bool :=
  startswith (rev s) (rev suffix).

(** The heading of a chapter and the blocks of its items, as the output
    loop appends them. *)
Definition render_group (float_repr : float -> str) (debug : bool)
  (colors : option (list str)) (g : option str * list Item) : str :=
  nl ++ lit "### " ++ str_of_opt (fst g) ++ nl ++ nl
  ++ List.concat (map (fun i => markdown float_repr i debug colors) (snd g)).

(** The chapters in the order the output loop visits them, each with the
    list of items the loop finds for it. *)
Definition chapter_groups (items : list Item)
  : io (list (option str * list Item)) :=
  chapters <- group_by_chapter items ;;
  sorted_chapters <- sort_chapters chapters ;;
  let chapters := sort_items chapters in
  mapM (fun ch => l <- getitem chapters ch ;; ret (ch, l)) sorted_chapters.

(** The items of [book] among the fetched rows (lines 145-146). *)
Definition items_of (books : list Book) (book : Book) (rows : list item_row)
  : list Item :=
  filter (fun i => opt_eqb (volumeid i) (bk_volumeid book))
    (map (fun r =>
            Item_init r
              (dict_get (fold_left (fun d b => dict_set d (bk_volumeid b) b)
                                   books [])
                        (VolumeID r)))
         rows).

(** The least [volume_index] among the items of chapter [ch]. *)
Definition least_volume_index (items : list Item) (ch : option str) : Z :=
  least (map volume_index (of_chapter ch items)).

(** The grouping in the words of the specification: one bucket per chapter,
    the items of a bucket sorted by [start_offset], the buckets sorted by
    their least [volume_index]; both sorts are stable, the buckets starting
    in the order in which their chapters are first met. *)
Definition spec_groups (items : list Item) : list (option str * list Item) :=
  map (fun ch => (ch, sort_by start_offset (of_chapter ch items)))
      (sort_by (least_volume_index items) (first_seen (map chapter items))).

(** The dict [d] holds the items [items] by chapter: its keys are the
    chapters in the order they are first met, and the value of a chapter is
    the list of its items in their order. *)
Definition holds_by_chapter (d : dict (list Item)) (items : list Item)
  : Prop :=
  dict_keys d = first_seen (map chapter items)
  /\ forall ch,
      dict_get d ch = match of_chapter ch items with
                      | [] => None
                      | l => Some l
                      end.

(** The text shared by the two item queries before and after the kind of
    join. *)
Definition items_select : string := "
        SELECT b.VolumeID, b.Text, b.Annotation, b.DateCreated, b.DateModified, b.ChapterProgress,
               c.BookTitle, c.Title as Chapter, c.Attribution as Author, b.BookmarkID, b.StartOffset,
               c.VolumeIndex, b.Color
        FROM Bookmark b ".

Definition items_join_tail : string := " JOIN content c ON b.ContentID = c.ContentID 
        GROUP BY b.BookmarkID ORDER BY c.VolumeIndex ASC, b.StartOffset ASC;
    ".

(** The heading of a chapter (line 164). *)
Definition heading (ch : option str) : str :=
  nl ++ lit "### " ++ str_of_opt ch ++ nl ++ nl.

(** The run never prints the usage text. *)
Definition no_usage {A} (m : io A) : Prop := ~ In PrintHelp (output m).

(** The arguments without [--bookid]. *)
Definition without_bookid (args : Args) : Args :=
  {| a_db := a_db args; a_list := a_list args; a_bookid := None;
     a_debug := a_debug args; a_colors := a_colors args;
     a_no_colors := a_no_colors args |}.

(** Exactly one of [--list] and [--bookid] was given. *)
Definition exactly_one (args : Args) : bool :=
  xorb (a_list args)
       (match a_bookid args with Some _ => true | None => false end).

(** Neither [--list] nor [--bookid] was given. *)
Definition neither (args : Args) : bool :=
  negb (a_list args)
  && (match a_bookid args with Some _ => false | None => true end).

(** Made of white space only. *)
Definition blank (s : str) : Prop := forallb isspace s = true.

(** Neither the first nor the last character is white space. *)
Definition stripped (s : str) : Prop := lstrip s = s /\ rstrip s = s.

(** [sep.join(l)] for a separator of one character. *)
Fixpoint join (sep : N) (l : list str) : str :=
  match l with
  | [] => []
  | [x] => x
  | x :: r => x ++ sep :: join sep r
  end.

(** The row is a row of [book] (the test of line 146). *)
Definition of_book (book : Book) (r : item_row) : bool :=
  opt_eqb (VolumeID r) (bk_volumeid book).

(** The author column of the listing: 30 characters. *)
Definition author_column (book : Book) : str :=
  ljust 30 (firstn 30 (if truthy (author book)
                       then str_of_opt (author book)
                       else lit "Unknown")).

(** The line of the listing for the book of number [i]. *)
Definition listing_line (ib : Z * Book) : str :=
  ljust 4 (str_of_Z (fst ib)) ++ lit " " ++ author_column (snd ib)
  ++ lit " " ++ str_of_opt (title (snd ib)).

(** The arguments with [--colors] replaced. *)
Definition with_colors (c : option str) (args : Args) : Args :=
  {| a_db := a_db args; a_list := a_list args; a_bookid := a_bookid args;
     a_debug := a_debug args; a_colors := c;
     a_no_colors := a_no_colors args |}.

(** The run that reports one error and ends with status 1. *)
Definition fails_with (msg : str) : io unit :=
  ([Stderr msg], inl (SystemExit 1)).

(* ===================================================================== *)
(** ** Concrete data for the examples *)
(* ===================================================================== *)

(** A rendering of floats for the examples; their rows leave
    [ChapterProgress] NULL, so it is never consulted. *)
Definition float_repr_example (f : float) : str :=
  if PrimFloat.eqb f 0.5%float then lit "0.5" else lit "0.0".

Definition example_row (txt ann ch : option str) (off vi : Z) (col : option Z)
  : item_row :=
  {| VolumeID := Some (lit "foo.epub"); Text := txt; Annotation := ann;
     DateCreated := None; DateModified := None; ChapterProgress := None;
     BookTitle := Some (lit "Foo"); Chapter := ch; Author := Some (lit "Bar");
     BookmarkID := None; StartOffset := Some off; VolumeIndex := Some vi;
     Color := col |}.

(** The book and the three items of the scenario: "B" at offset 5 and "A"
    at offset 2 in Ch1, "C" with the note "note" in Ch2. *)
Definition foo_book : Book :=
  {| bk_volumeid := Some (lit "foo.epub"); title := Some (lit "Foo");
     author := Some (lit "Bar"); itemscount := 3 |}.

Definition row_B : item_row :=
  example_row (Some (lit "B")) None (Some (lit "Ch1")) 5 0 None.
Definition row_A : item_row :=
  example_row (Some (lit "A")) None (Some (lit "Ch1")) 2 0 None.
Definition row_C : item_row :=
  example_row (Some (lit "C")) (Some (lit "note")) (Some (lit "Ch2")) 0 1 None.

(** A row with neither text nor annotation, alone in its chapter. *)
Definition row_mark : item_row :=
  example_row None None (Some (lit "Ch3")) 0 2 None.

(** A row whose text is blank, and one whose annotation is the empty
    string. *)
Definition row_blank : item_row :=
  example_row (Some (lit "   ")) (Some (lit "n")) None 0 0 None.
Definition row_plain : item_row :=
  example_row (Some (lit " x ")) (Some []) None 0 0 None.

(** The highlight "A" with colour code [c]. *)
Definition row_colored (c : Z) : item_row :=
  example_row (Some (lit "A")) None (Some (lit "Ch1")) 2 0 (Some c).

(** Two labels, as [--colors "y,r"] gives them. *)
Definition two_labels : list str := [lit "y"; lit "r"].

(** A readable database of version [v] that holds the book Foo and the
    item rows [rows]. *)
Definition foo_world (v : Z) (rows : list item_row) : World :=
  {| path_exists := fun _ => true;
     execute := fun sh =>
       match sh return str -> string -> str + list (row sh) with
       | VersionRows => fun _ _ => inr [ {| version := v |} ]
       | BookRows => fun _ _ =>
           inr [ {| b_VolumeID := Some (lit "foo.epub");
                    b_Title := Some (lit "Foo");
                    b_Author := Some (lit "Bar"); b_Items := 3 |} ]
       | ItemRows => fun _ _ => inr rows
       end |}.

Definition foo_kobo (v : Z) : ExportKobo :=
  {| db_path := lit "KoboReader.sqlite"; db_version := v;
     books := [foo_book] |}.

Definition example_args (l : bool) (b : option Z) : Args :=
  {| a_db := lit "KoboReader.sqlite"; a_list := l; a_bookid := b;
     a_debug := false; a_colors := None; a_no_colors := false |}.

(** The document of the scenario. *)
Definition foo_document : str :=
  lit "---" ++ nl ++ lit "title: Foo" ++ nl ++ lit "author: Bar" ++ nl
  ++ lit "---" ++ nl ++ lit "# " ++ [34%N] ++ lit "Foo" ++ [34%N]
  ++ lit " by Bar" ++ nl
  ++ nl ++ lit "### Ch1" ++ nl ++ nl
  ++ lit "> A" ++ nl ++ nl
  ++ lit "> B" ++ nl ++ nl
  ++ nl ++ lit "### Ch2" ++ nl ++ nl
  ++ lit "> C" ++ nl ++ nl ++ lit "- note" ++ nl ++ nl.

(** A world without the database file, and one whose database answers
    every query with the error [e]. *)
Definition no_file_world : World :=
  {| path_exists := fun _ => false;
     execute := fun sh _ _ => inl [] |}.

Definition broken_world (e : str) : World :=
  {| path_exists := fun _ => true;
     execute := fun sh _ _ => inl e |}.

(** A row of another book. *)
Definition row_other : item_row :=
  {| VolumeID := Some (lit "other.epub"); Text := Some (lit "Z");
     Annotation := None; DateCreated := None; DateModified := None;
     ChapterProgress := None; BookTitle := None; Chapter := None;
     Author := None; BookmarkID := None; StartOffset := None;
     VolumeIndex := None; Color := None |}.

(** A book without author. *)
Definition anonymous_book : Book :=
  {| bk_volumeid := Some (lit "anon.epub"); title := Some (lit "Untitled");
     author := None; itemscount := 1 |}.

(* ===================================================================== *)
(** ** Properties of [Item] *)
(* ===================================================================== *)

Lemma lstrip_idem (s : str) : lstrip (lstrip s) = lstrip s.
Proof.
  induction s as [|c r IH]; simpl; [reflexivity|].
  destruct (isspace c) eqn:E; [exact IH|].
  simpl. now rewrite E.
Qed.

Lemma rstrip_idem (s : str) : rstrip (rstrip s) = rstrip s.
Proof.
  unfold rstrip. now rewrite rev_involutive, lstrip_idem.
Qed.

Lemma lstrip_spaces (s : str) : forallb isspace s = true -> lstrip s = [].
Proof.
  induction s as [|c r IH]; simpl; [reflexivity|].
  intros H. apply andb_true_iff in H as [Hc Hr]. now rewrite Hc, IH.
Qed.

Lemma strip_spaces (s : str) : forallb isspace s = true -> strip s = [].
Proof.
  intros H. unfold strip. now rewrite lstrip_spaces.
Qed.

Lemma rstrip_strip (s : str) : rstrip (strip s) = strip s.
Proof. unfold strip. apply rstrip_idem. Qed.

(** The kind of an item whose [Text] column holds the string [s]. *)
Lemma kind_of_text (values : item_row) (book : option Book) (s : str) :
  Text values = Some s ->
  kind (Item_init values book)
  = classify (truthy (Some (strip s))) (truthy (Annotation values)).
Proof.
  intros E. unfold Item_init; simpl. rewrite E.
  destruct s as [|c r]; simpl; [reflexivity|].
  fold (strip (c :: r)). rewrite rstrip_strip.
  destruct (strip (c :: r)); simpl; [reflexivity|].
  destruct (truthy (Annotation values)); reflexivity.
Qed.


(** C10: classification goes by truth value: a row whose text is made of
    white space only gives a bookmark, and a row whose text is not empty
    once trimmed and whose annotation is the empty string gives a
    highlight. *)
Theorem C10_truthiness_not_nullness (values : item_row) (book : option Book)
  (s : str) :
  Text values = Some s ->
  (forallb isspace s = true -> kind (Item_init values book) = BOOKMARK)
  /\ (strip s <> [] -> Annotation values = Some [] ->
      kind (Item_init values book) = HIGHLIGHT).
Proof.
  intros E. rewrite (kind_of_text values book s E). split.
  - intros Hs. now rewrite (strip_spaces _ Hs).
  - intros Hs Ha. rewrite Ha.
    destruct (strip s); [congruence|reflexivity].
Qed.

Lemma C10_truthiness_witness :
  kind (Item_init row_blank None) = BOOKMARK
  /\ kind (Item_init row_plain None) = HIGHLIGHT.
Proof.
  split.
  - apply (proj1 (C10_truthiness_not_nullness row_blank None (lit "   ")
                    eq_refl)).
    reflexivity.
  - apply (proj2 (C10_truthiness_not_nullness row_plain None (lit " x ")
                    eq_refl)).
    + vm_compute. discriminate.
    + reflexivity.
Defined.

(* ===================================================================== *)
(** ** The choice of the query *)
(* ===================================================================== *)

Lemma queries_differ : QUERY_ITEMS_V175 <> QUERY_ITEMS_V174.
Proof. intros H. vm_compute in H. discriminate H. Qed.

(** C3: the query chosen for a schema version is the INNER JOIN text
    exactly when the version is 175 and the LEFT JOIN text for every other
    version; the two texts have the same SELECT list and differ in the kind
    of join only. *)
Theorem C3_query_selection (v : Z) :
  (select_query v = QUERY_ITEMS_V175 <-> v = 175)
  /\ (v <> 175 -> select_query v = QUERY_ITEMS_V174)
  /\ QUERY_ITEMS_V175 = (items_select ++ "INNER" ++ items_join_tail)%string
  /\ QUERY_ITEMS_V174 = (items_select ++ "LEFT" ++ items_join_tail)%string.
Proof.
  unfold select_query. repeat split.
  - destruct (Z.eqb_spec v 175) as [e|n]; [trivial|].
    intros H. symmetry in H. now apply queries_differ in H.
  - intros ->. reflexivity.
  - intros n. destruct (Z.eqb_spec v 175); [contradiction|reflexivity].
Qed.

Lemma C3_query_selection_witness :
  select_query 175 = QUERY_ITEMS_V175
  /\ select_query 174 = QUERY_ITEMS_V174.
Proof.
  split.
  - apply (proj2 (proj1 (C3_query_selection 175))). reflexivity.
  - apply (proj1 (proj2 (C3_query_selection 174))). lia.
Defined.

(* ===================================================================== *)
(** ** Properties of [Item.markdown] *)
(* ===================================================================== *)

Section Markdown.

Variable float_repr : float -> str.

Lemma markdown_bookmark (it : Item) debug colors :
  kind it = BOOKMARK -> markdown float_repr it debug colors = [].
Proof. intros H. unfold markdown. now rewrite H. Qed.

(** Without labels, or with a colour code that is no index of the labels,
    the block is the one rendered with [colors=None]. *)
Lemma markdown_no_prefix (it : Item) debug colors :
  (forall l, colors = Some l -> ~ 0 <= color it < Z.of_nat (List.length l)) ->
  markdown float_repr it debug colors = markdown float_repr it debug None.
Proof.
  intros H. unfold markdown.
  destruct colors as [l|]; [|reflexivity].
  specialize (H l eq_refl). simpl or_default.
  destruct (truthy_list (Some l) && (0 <=? color it)
            && (color it <? Z.of_nat (List.length l))) eqn:E; [|reflexivity].
  apply andb_true_iff in E as [E E3]. apply andb_true_iff in E as [_ E2].
  apply Z.leb_le in E2. apply Z.ltb_lt in E3. lia.
Qed.

Lemma markdown_prefix (it : Item) debug (l : list str) :
  0 <= color it < Z.of_nat (List.length l) ->
  kind it <> BOOKMARK ->
  exists label rest,
    nth_error l (Z.to_nat (color it)) = Some label
    /\ markdown float_repr it debug None = lit "> " ++ rest
    /\ markdown float_repr it debug (Some l)
       = lit "> " ++ label ++ lit " " ++ rest.
Proof.
  intros Hc Hk.
  assert (Hn : (Z.to_nat (color it) < List.length l)%nat) by lia.
  exists (nth (Z.to_nat (color it)) l []).
  assert (Ht : truthy_list (Some l) && (0 <=? color it)
               && (color it <? Z.of_nat (List.length l)) = true).
  { destruct l as [|a l']; [simpl in Hc; lia|].
    cbn [truthy_list andb].
    apply andb_true_iff. split; [apply Z.leb_le|apply Z.ltb_lt]; lia. }
  unfold markdown. simpl or_default. rewrite Ht.
  destruct (kind it); [| contradiction |].
  - eexists. split; [now apply nth_error_nth'|]. split; [reflexivity|].
    cbn [truthy_list andb]. now rewrite <- !app_assoc.
  - eexists. split; [now apply nth_error_nth'|]. split; [reflexivity|].
    cbn [truthy_list andb]. now rewrite <- !app_assoc.
Qed.

(** C5: the label of the item's colour and a space are put in front of the
    quoted text exactly when labels are given and the colour code is an
    index into them; in every other case, whatever the code, the block is
    the one without prefix. *)
Theorem C5_color_prefix_iff_valid_index (it : Item) (debug : bool)
  (colors : option (list str)) :
  (forall l, colors = Some l ->
     0 <= color it < Z.of_nat (List.length l) ->
     kind it <> BOOKMARK ->
     exists label rest,
       nth_error l (Z.to_nat (color it)) = Some label
       /\ markdown float_repr it debug None = lit "> " ++ rest
       /\ markdown float_repr it debug colors
          = lit "> " ++ label ++ lit " " ++ rest)
  /\ ((forall l, colors = Some l ->
         ~ 0 <= color it < Z.of_nat (List.length l)) ->
      markdown float_repr it debug colors = markdown float_repr it debug None).
Proof.
  split.
  - intros l -> Hc Hk. now apply markdown_prefix.
  - apply markdown_no_prefix.
Qed.

End Markdown.

Lemma C5_color_prefix_witness :
  (exists label rest,
      nth_error two_labels (Z.to_nat (color (Item_init (row_colored 1) None)))
      = Some label
      /\ markdown float_repr_example (Item_init (row_colored 1) None) false None
         = lit "> " ++ rest
      /\ markdown float_repr_example (Item_init (row_colored 1) None) false
           (Some two_labels)
         = lit "> " ++ label ++ lit " " ++ rest)
  /\ markdown float_repr_example (Item_init (row_colored 2) None) false
       (Some two_labels)
     = markdown float_repr_example (Item_init (row_colored 2) None) false None
  /\ markdown float_repr_example (Item_init (row_colored (-1)) None) false
       (Some two_labels)
     = markdown float_repr_example (Item_init (row_colored (-1)) None) false
         None.
Proof.
  split; [|split].
  - apply (proj1 (C5_color_prefix_iff_valid_index float_repr_example
                    (Item_init (row_colored 1) None) false (Some two_labels))
             two_labels eq_refl).
    + simpl. lia.
    + discriminate.
  - apply (proj2 (C5_color_prefix_iff_valid_index float_repr_example
                    (Item_init (row_colored 2) None) false (Some two_labels))).
    intros l E. injection E as <-. simpl. lia.
  - apply (proj2 (C5_color_prefix_iff_valid_index float_repr_example
                    (Item_init (row_colored (-1)) None) false
                    (Some two_labels))).
    intros l E. injection E as <-. simpl. lia.
Defined.

(* ===================================================================== *)
(** ** The debug line *)
(* ===================================================================== *)

Lemma startswith_app (p s : str) : startswith (p ++ s) p = true.
Proof.
  induction p as [|c p IH]; simpl; [now destruct s|].
  now rewrite N.eqb_refl, IH.
Qed.

Lemma endswith_app (pre suffix : str) : endswith (pre ++ suffix) suffix = true.
Proof.
  unfold endswith. rewrite rev_app_distr. apply startswith_app.
Qed.

Section DebugLine.

Variable float_repr : float -> str.

(** C7, as amended: with [debug] set, the debug text (a quoted line naming
    kind, volume_index, start_offset, chapter_progress, datecreated and
    color, in this order) is put right after the quoted text. For a
    highlight only the closing blank line follows it; for an annotation the
    blank line and the note paragraph follow it; a bookmark renders
    nothing. *)
Theorem C7_debug_line_follows_quote (it : Item) (colors : option (list str)) :
  debug_info_of float_repr it
  = nl ++ lit ">" ++ nl ++ lit "> **Debug:** kind=" ++ kind_str (kind it)
    ++ lit ", volume_index=" ++ str_of_Z (volume_index it)
    ++ lit ", start_offset=" ++ str_of_Z (start_offset it)
    ++ lit ", chapter_progress=" ++ str_of_num float_repr (chapter_progress it)
    ++ lit ", datecreated=" ++ datecreated it
    ++ lit ", color=" ++ str_of_Z (color it)
  /\ exists quoted,
      match kind it with
      | HIGHLIGHT =>
          markdown float_repr it false colors = quoted ++ nl ++ nl
          /\ markdown float_repr it true colors
             = quoted ++ debug_info_of float_repr it ++ nl ++ nl
      | ANNOTATION =>
          let note :=
            nl ++ nl ++ lit "- " ++ str_of_opt (annotation it) ++ nl ++ nl in
          markdown float_repr it false colors = quoted ++ note
          /\ markdown float_repr it true colors
             = quoted ++ debug_info_of float_repr it ++ note
      | BOOKMARK =>
          markdown float_repr it false colors = []
          /\ markdown float_repr it true colors = []
      end.
Proof.
  split; [reflexivity|].
  unfold markdown.
  set (prefix :=
         if truthy_list colors && (0 <=? color it)
            && (color it <? Z.of_nat (List.length (or_default colors [])))
         then nth (Z.to_nat (color it)) (or_default colors []) [] ++ lit " "
         else []).
  exists (lit "> " ++ prefix ++ str_of_opt (text it)).
  destruct (kind it); cbv zeta.
  - split; now rewrite <- ?app_assoc.
  - split; reflexivity.
  - split; now rewrite <- ?app_assoc.
Qed.

End DebugLine.

(** C7, as stated, fails for an annotation: the block of the item "C" of
    the scenario, rendered with [debug] set, does not end with the debug
    line and the closing blank line; the note paragraph ends it. *)
Lemma C7_debug_line_not_last_for_annotation :
  kind (Item_init row_C None) = ANNOTATION
  /\ ~ (exists pre,
          markdown float_repr_example (Item_init row_C None) true None
          = pre ++ debug_info_of float_repr_example (Item_init row_C None)
              ++ nl ++ nl)
  /\ endswith (markdown float_repr_example (Item_init row_C None) true None)
       (lit "- note" ++ nl ++ nl) = true.
Proof.
  split; [reflexivity|]. split; [|reflexivity].
  intros [pre H].
  assert (E : endswith
                (markdown float_repr_example (Item_init row_C None) true None)
                (debug_info_of float_repr_example (Item_init row_C None)
                 ++ nl ++ nl) = true).
  { rewrite H. apply endswith_app. }
  vm_compute in E. discriminate E.
Qed.

(* ===================================================================== *)
(** ** [sort_by] is a stable sort *)
(* ===================================================================== *)

Section SortFacts.

Context {A : Type} (key : A -> Z).

Lemma insert_by_perm (x : A) (l : list A) :
  Permutation (insert_by key x l) (x :: l).
Proof.
  induction l as [|y r IH]; simpl; [reflexivity|].
  destruct (key x <=? key y); [reflexivity|].
  rewrite IH. apply perm_swap.
Qed.

Lemma sort_by_perm (l : list A) : Permutation (sort_by key l) l.
Proof.
  induction l as [|x r IH]; simpl; [reflexivity|].
  rewrite insert_by_perm. now constructor.
Qed.

Lemma insert_by_ascending (x : A) (l : list A) :
  ascending key l -> ascending key (insert_by key x l).
Proof.
  unfold ascending. induction l as [|y r IH]; intros H; simpl.
  - repeat constructor.
  - inversion H as [|? ? Hr Hy]; subst.
    destruct (Z.leb_spec (key x) (key y)) as [Hle|Hlt].
    + constructor; [exact H|]. constructor; [exact Hle|].
      eapply Forall_impl; [|exact Hy]. simpl; intros; lia.
    + constructor; [now apply IH|].
      eapply Permutation_Forall.
      * symmetry. apply insert_by_perm.
      * constructor; [lia|exact Hy].
Qed.

Lemma sort_by_ascending (l : list A) : ascending key (sort_by key l).
Proof.
  induction l as [|x r IH]; simpl; [constructor|].
  now apply insert_by_ascending.
Qed.

Lemma insert_by_with_key (x : A) (l : list A) (k : Z) :
  with_key key k (insert_by key x l) = with_key key k (x :: l).
Proof.
  unfold with_key. induction l as [|y r IH]; simpl; [reflexivity|].
  destruct (Z.leb_spec (key x) (key y)) as [Hle|Hlt]; [reflexivity|].
  simpl. rewrite IH. simpl.
  destruct (Z.eqb_spec (key y) k), (Z.eqb_spec (key x) k);
    try reflexivity; lia.
Qed.

Lemma sort_by_with_key (l : list A) (k : Z) :
  with_key key k (sort_by key l) = with_key key k l.
Proof.
  induction l as [|x r IH]; simpl; [reflexivity|].
  rewrite insert_by_with_key. unfold with_key in *. simpl. now rewrite IH.
Qed.

Lemma sort_by_stable (l : list A) : stable_sorted key l (sort_by key l).
Proof.
  split; [apply sort_by_ascending|]. intros k. apply sort_by_with_key.
Qed.

(** Sorting the elements paired with their keys is sorting by the key. *)
Lemma sort_by_decorated (l : list A) :
  map fst (sort_by snd (combine l (map key l))) = sort_by key l.
Proof.
  assert (Hins : forall x r,
             insert_by snd (x, key x) (map (fun a => (a, key a)) r)
             = map (fun a => (a, key a)) (insert_by key x r)).
  { intros x r. induction r as [|y r IH]; simpl; [reflexivity|].
    destruct (key x <=? key y); simpl; [reflexivity|]. now rewrite IH. }
  assert (Hsort : sort_by snd (combine l (map key l))
                  = map (fun a => (a, key a)) (sort_by key l)).
  { induction l as [|x r IH]; simpl; [reflexivity|].
    now rewrite IH, Hins. }
  rewrite Hsort, map_map. simpl. apply map_id.
Qed.

End SortFacts.

Lemma fold_min_le (l : list Z) (x : Z) :
  fold_left Z.min l x <= x /\ Forall (fun y => fold_left Z.min l x <= y) l.
Proof.
  revert x. induction l as [|y r IH]; intros x; simpl.
  - split; [lia|constructor].
  - destruct (IH (Z.min x y)) as [H1 H2]. split; [lia|].
    constructor; [lia|exact H2].
Qed.

Lemma fold_min_in (l : list Z) (x : Z) : In (fold_left Z.min l x) (x :: l).
Proof.
  revert x. induction l as [|y r IH]; intros x; simpl; [now left|].
  destruct (IH (Z.min x y)) as [H|H].
  - rewrite <- H.
    destruct (Z.min_spec x y) as [[_ E]|[_ E]]; rewrite E; auto.
  - right; right; exact H.
Qed.

(** [least] is the minimum of a list that is not empty. *)
Lemma least_is_min (l : list Z) : l <> [] -> is_min (least l) l.
Proof.
  destruct l as [|x r]; [congruence|]. intros _. unfold is_min, least.
  split; [apply fold_min_in|].
  destruct (fold_min_le r x) as [H1 H2]. now constructor.
Qed.

Lemma py_min_least (l : list Z) : l <> [] -> py_min l = ret (least l).
Proof. destruct l; [congruence|reflexivity]. Qed.

(* ===================================================================== *)
(** ** Facts about the monad and the dictionaries *)
(* ===================================================================== *)

Lemma bind_ret_l {A B} (x : A) (k : A -> io B) : bind (ret x) k = k x.
Proof. unfold bind, ret. now destruct (k x). Qed.

Lemma mapM_ret {A B} (f : A -> io B) (g : A -> B) (l : list A) :
  (forall x, In x l -> f x = ret (g x)) -> mapM f l = ret (map g l).
Proof.
  induction l as [|x r IH]; intros H; simpl; [reflexivity|].
  rewrite (H x (or_introl eq_refl)), bind_ret_l.
  rewrite IH by (intros; apply H; now right).
  now rewrite bind_ret_l.
Qed.

Lemma opt_eqb_eq (a b : option str) : opt_eqb a b = true <-> a = b.
Proof.
  destruct a as [x|], b as [y|]; simpl; unfold str_eqb;
    try destruct (list_eq_dec N.eq_dec x y); split; congruence.
Qed.

Lemma opt_eqb_refl (a : option str) : opt_eqb a a = true.
Proof. now apply opt_eqb_eq. Qed.

Lemma opt_eqb_sym (a b : option str) : opt_eqb a b = opt_eqb b a.
Proof.
  destruct (opt_eqb a b) eqn:E1, (opt_eqb b a) eqn:E2; try reflexivity.
  - apply opt_eqb_eq in E1. subst. now rewrite opt_eqb_refl in E2.
  - apply opt_eqb_eq in E2. subst. now rewrite opt_eqb_refl in E1.
Qed.

Lemma opt_eqb_neq (a b : option str) : opt_eqb a b = false <-> a <> b.
Proof.
  rewrite <- opt_eqb_eq. destruct (opt_eqb a b); split; congruence.
Qed.

Lemma dict_get_set {V} (d : dict V) (k k' : option str) (v : V) :
  dict_get (dict_set d k v) k'
  = if opt_eqb k k' then Some v else dict_get d k'.
Proof.
  induction d as [|[k0 v0] r IH]; simpl.
  - now destruct (opt_eqb k k').
  - destruct (opt_eqb k0 k) eqn:E0; simpl.
    + apply opt_eqb_eq in E0. subst k0. now destruct (opt_eqb k k').
    + destruct (opt_eqb k0 k') eqn:E1; [|exact IH].
      apply opt_eqb_eq in E1. subst k0. now rewrite opt_eqb_sym, E0.
Qed.

Lemma dict_keys_set {V} (d : dict V) (k : option str) (v : V) :
  dict_keys (dict_set d k v)
  = match dict_get d k with
    | Some _ => dict_keys d
    | None => dict_keys d ++ [k]
    end.
Proof.
  unfold dict_keys. induction d as [|[k0 v0] r IH]; simpl; [reflexivity|].
  destruct (opt_eqb k0 k); simpl; [reflexivity|].
  rewrite IH. now destruct (dict_get r k).
Qed.

Lemma dict_get_sort_items (d : dict (list Item)) (ch : option str) :
  dict_get (sort_items d) ch
  = option_map (sort_by start_offset) (dict_get d ch).
Proof.
  induction d as [|[k0 v0] r IH]; simpl; [reflexivity|].
  now destruct (opt_eqb k0 ch).
Qed.

(* ===================================================================== *)
(** ** First occurrences and the items of a chapter *)
(* ===================================================================== *)

Lemma first_seen_snoc (l : list (option str)) (k : option str) :
  first_seen (l ++ [k])
  = if existsb (opt_eqb k) l then first_seen l else first_seen l ++ [k].
Proof.
  induction l as [|y l IH]; simpl; [reflexivity|].
  rewrite IH. destruct (existsb (opt_eqb k) l).
  - now rewrite orb_true_r.
  - rewrite orb_false_r, filter_app. simpl.
    rewrite (opt_eqb_sym y k).
    destruct (opt_eqb k y); simpl; [now rewrite app_nil_r|reflexivity].
Qed.

Lemma first_seen_In (l : list (option str)) (x : option str) :
  In x (first_seen l) <-> In x l.
Proof.
  induction l as [|y l IH]; simpl; [tauto|].
  rewrite filter_In, IH, negb_true_iff, opt_eqb_neq.
  destruct (opt_eqb y x) eqn:E.
  - apply opt_eqb_eq in E. tauto.
  - apply opt_eqb_neq in E. tauto.
Qed.

Lemma first_seen_NoDup (l : list (option str)) : NoDup (first_seen l).
Proof.
  induction l as [|y l IH]; simpl; constructor.
  - rewrite filter_In, opt_eqb_refl. simpl. intros [_ H]. discriminate.
  - now apply NoDup_filter.
Qed.

Lemma of_chapter_snoc (ch : option str) (items : list Item) (it : Item) :
  of_chapter ch (items ++ [it])
  = of_chapter ch items ++ (if opt_eqb ch (chapter it) then [it] else []).
Proof. unfold of_chapter. now rewrite filter_app. Qed.

Lemma of_chapter_nil (ch : option str) (items : list Item) :
  of_chapter ch items = []
  <-> existsb (opt_eqb ch) (map chapter items) = false.
Proof.
  unfold of_chapter. induction items as [|i r IH]; simpl; [tauto|].
  destruct (opt_eqb ch (chapter i)); simpl; [split; discriminate|exact IH].
Qed.

Lemma of_chapter_In (ch : option str) (items : list Item) :
  In ch (map chapter items) -> of_chapter ch items <> [].
Proof.
  intros H E. apply of_chapter_nil in E.
  assert (T : existsb (opt_eqb ch) (map chapter items) = true).
  { apply existsb_exists. exists ch. split; [exact H|apply opt_eqb_refl]. }
  congruence.
Qed.

(* ===================================================================== *)
(** ** Grouping by chapter *)
(* ===================================================================== *)

Lemma holds_by_chapter_nil : holds_by_chapter [] [].
Proof. split; [reflexivity|]. intros ch. reflexivity. Qed.

(** One turn of the loop of lines 150-153 keeps the dict right. *)
Lemma group_step_holds (d : dict (list Item)) (items : list Item)
  (it : Item) :
  holds_by_chapter d items ->
  exists d', group_step d it = ret d'
             /\ holds_by_chapter d' (items ++ [it]).
Proof.
  intros [Hk Hg]. unfold group_step.
  pose proof (Hg (chapter it)) as Hit.
  destruct (of_chapter (chapter it) items) as [|i0 l0] eqn:El.
  - (* a chapter met for the first time *)
    rewrite Hit. unfold getitem.
    rewrite dict_get_set, opt_eqb_refl, bind_ret_l.
    eexists. split; [reflexivity|]. split.
    + rewrite !dict_keys_set, dict_get_set, opt_eqb_refl, Hit, Hk.
      rewrite map_app. simpl. rewrite first_seen_snoc.
      apply of_chapter_nil in El. now rewrite El.
    + intros ch. rewrite !dict_get_set, of_chapter_snoc, Hg.
      rewrite (opt_eqb_sym ch (chapter it)).
      destruct (opt_eqb (chapter it) ch) eqn:E.
      * apply opt_eqb_eq in E. subst ch. now rewrite El.
      * now rewrite app_nil_r.
  - (* a chapter of the dict *)
    rewrite Hit. unfold getitem. rewrite Hit, bind_ret_l.
    eexists. split; [reflexivity|]. split.
    + rewrite dict_keys_set, Hit, Hk, map_app. simpl.
      rewrite first_seen_snoc.
      destruct (existsb (opt_eqb (chapter it)) (map chapter items)) eqn:E;
        [reflexivity|].
      apply of_chapter_nil in E. congruence.
    + intros ch. rewrite dict_get_set, of_chapter_snoc, Hg.
      rewrite (opt_eqb_sym ch (chapter it)).
      destruct (opt_eqb (chapter it) ch) eqn:E.
      * apply opt_eqb_eq in E. subst ch. now rewrite El.
      * now rewrite app_nil_r.
Qed.

Lemma group_loop_holds (items pre : list Item) (d : dict (list Item)) :
  holds_by_chapter d pre ->
  exists d', foldM group_step items d = ret d'
             /\ holds_by_chapter d' (pre ++ items).
Proof.
  revert pre d. induction items as [|it r IH]; intros pre d H; simpl.
  - exists d. now rewrite app_nil_r.
  - destruct (group_step_holds d pre it H) as (d1 & E1 & H1).
    rewrite E1, bind_ret_l.
    destruct (IH _ _ H1) as (d' & E' & H').
    exists d'. split; [exact E'|]. now rewrite <- app_assoc in H'.
Qed.

(** Lines 149-153 never fail and build the dict of the items by chapter. *)
Lemma group_by_chapter_holds (items : list Item) :
  exists d, group_by_chapter items = ret d /\ holds_by_chapter d items.
Proof. apply (group_loop_holds items [] []), holds_by_chapter_nil. Qed.

Lemma holds_get_key (d : dict (list Item)) (items : list Item)
  (ch : option str) :
  holds_by_chapter d items -> In ch (dict_keys d) ->
  dict_get d ch = Some (of_chapter ch items) /\ of_chapter ch items <> [].
Proof.
  intros [Hk Hg] Hin. rewrite Hk in Hin.
  apply (proj1 (first_seen_In _ _)) in Hin.
  apply of_chapter_In in Hin. rewrite Hg.
  destruct (of_chapter ch items); [congruence|]. split; [reflexivity|exact Hin].
Qed.

(** Line 156 never fails: every chapter of the dict has an item, and the
    chapters come out sorted by their least [volume_index]. *)
Lemma sort_chapters_holds (d : dict (list Item)) (items : list Item) :
  holds_by_chapter d items ->
  sort_chapters d
  = ret (sort_by (least_volume_index items) (first_seen (map chapter items))).
Proof.
  intros H. unfold sort_chapters, py_sorted.
  rewrite (mapM_ret _ (least_volume_index items)).
  - rewrite bind_ret_l, sort_by_decorated. now destruct H as [-> _].
  - intros ch Hin. destruct (holds_get_key d items ch H Hin) as [E Hne].
    unfold getitem. rewrite E, bind_ret_l. apply py_min_least.
    intros Hm. apply map_eq_nil in Hm. contradiction.
Qed.

(** The chapters the output loop visits and the items it finds are the
    groups of the specification. *)
Lemma chapter_groups_spec (items : list Item) :
  chapter_groups items = ret (spec_groups items).
Proof.
  unfold chapter_groups, spec_groups.
  destruct (group_by_chapter_holds items) as (d & Ed & Hd).
  rewrite Ed, bind_ret_l, (sort_chapters_holds d items Hd), bind_ret_l.
  apply mapM_ret. intros ch Hin.
  assert (Hk : In ch (dict_keys d)).
  { destruct Hd as [-> _].
    eapply Permutation_in; [apply sort_by_perm|exact Hin]. }
  destruct (holds_get_key d items ch Hd Hk) as [E _].
  unfold getitem. rewrite dict_get_sort_items, E. reflexivity.
Qed.

Lemma is_min_perm (m : Z) (l l' : list Z) :
  Permutation l l' -> is_min m l -> is_min m l'.
Proof.
  intros P [Hin Hle]. split.
  - eapply Permutation_in; eassumption.
  - eapply Permutation_Forall; eassumption.
Qed.

Lemma spec_groups_In (items : list Item) (ch : option str) (l : list Item) :
  In (ch, l) (spec_groups items) ->
  In ch (map chapter items)
  /\ l = sort_by start_offset (of_chapter ch items).
Proof.
  unfold spec_groups. intros H. apply in_map_iff in H as (c & E & Hc).
  injection E as -> <-. split; [|reflexivity].
  apply first_seen_In.
  eapply Permutation_in; [apply sort_by_perm|exact Hc].
Qed.

Lemma spec_groups_keys (items : list Item) :
  map fst (spec_groups items)
  = sort_by (least_volume_index items) (first_seen (map chapter items)).
Proof. unfold spec_groups. rewrite map_map. apply map_id. Qed.

(** C2: the grouping never fails and gives one bucket per chapter (the
    absent chapter is a key like any other): every item is in the bucket of
    its chapter, a bucket holds the items of its chapter and nothing else,
    sorted by [start_offset] with ties in their original order, and the
    buckets are sorted by the least [volume_index] of their items, buckets
    of equal least index in the order their chapters are first met. *)
Theorem C2_grouping_partitions_and_orders (items : list Item) :
  exists groups,
    chapter_groups items = ret groups
    /\ NoDup (map fst groups)
    /\ (forall it, In it items ->
          exists l, In (chapter it, l) groups /\ In it l)
    /\ (forall ch l, In (ch, l) groups ->
          l <> []
          /\ Permutation l (of_chapter ch items)
          /\ stable_sorted start_offset (of_chapter ch items) l
          /\ is_min (least_volume_index items ch) (map volume_index l))
    /\ stable_sorted (least_volume_index items)
         (first_seen (map chapter items)) (map fst groups).
Proof.
  exists (spec_groups items). split; [apply chapter_groups_spec|].
  split; [|split; [|split]].
  - rewrite spec_groups_keys.
    eapply Permutation_NoDup;
      [symmetry; apply sort_by_perm|apply first_seen_NoDup].
  - intros it Hit.
    exists (sort_by start_offset (of_chapter (chapter it) items)). split.
    + unfold spec_groups. apply in_map_iff. exists (chapter it).
      split; [reflexivity|].
      eapply Permutation_in; [symmetry; apply sort_by_perm|].
      apply first_seen_In. now apply in_map.
    + eapply Permutation_in; [symmetry; apply sort_by_perm|].
      unfold of_chapter. apply filter_In. split; [exact Hit|].
      apply opt_eqb_refl.
  - intros ch l H. apply spec_groups_In in H as [Hch ->].
    pose proof (of_chapter_In ch items Hch) as Hne.
    pose proof (sort_by_perm start_offset (of_chapter ch items)) as P.
    split; [|split; [exact P|split; [apply sort_by_stable|]]].
    + intros E. rewrite E in P. apply Permutation_nil in P. contradiction.
    + eapply is_min_perm; [apply Permutation_map; symmetry; exact P|].
      apply least_is_min. intros E. apply map_eq_nil in E. contradiction.
  - rewrite spec_groups_keys. apply sort_by_stable.
Qed.

(* ===================================================================== *)
(** ** The document [export_markdown] prints *)
(* ===================================================================== *)

Section ExportDocument.

Variable float_repr : float -> str.
Variable w : World.

Lemma fold_left_append {A} (f : A -> str) (l : list A) (out : str) :
  fold_left (fun o a => o ++ f a) l out = out ++ List.concat (map f l).
Proof.
  revert out. induction l as [|a r IH]; intros out; simpl.
  - now rewrite app_nil_r.
  - now rewrite IH, <- app_assoc.
Qed.

(** Lines 163-166 never fail on chapters of the dict and append the
    rendering of each with its sorted items. *)
Lemma render_chapters_holds (d : dict (list Item)) (items : list Item)
  (cs : list (option str)) debug colors (out : str) :
  holds_by_chapter d items ->
  incl cs (dict_keys d) ->
  render_chapters float_repr (sort_items d) cs debug colors out
  = ret (out
         ++ List.concat
              (map (fun ch =>
                      render_group float_repr debug colors
                        (ch, sort_by start_offset (of_chapter ch items)))
                   cs)).
Proof.
  intros Hd. unfold render_chapters.
  revert out. induction cs as [|ch r IH]; intros out Hin.
  - simpl. now rewrite app_nil_r.
  - assert (Hk : In ch (dict_keys d)) by (apply Hin; now left).
    destruct (holds_get_key d items ch Hd Hk) as [E _].
    cbn [foldM map List.concat].
    unfold getitem at 1. rewrite dict_get_sort_items, E.
    cbn [option_map]. rewrite !bind_ret_l, fold_left_append.
    rewrite IH by (intros x Hx; apply Hin; now right).
    unfold render_group. cbn [fst snd].
    now rewrite <- !app_assoc.
Qed.

(** An index out of [1, len(books)] is reported and ends the run with
    status 1 (lines 137-139). *)
Lemma export_markdown_out_of_range (self : ExportKobo) (book_id : Z)
  debug colors :
  book_id < 1 \/ book_id > Z.of_nat (List.length (books self)) ->
  export_markdown float_repr w self book_id debug colors
  = ([Stderr (lit "Error: bookid must be between 1 and "
              ++ str_of_Z (Z.of_nat (List.length (books self))))],
     inl (SystemExit 1)).
Proof.
  intros H. unfold export_markdown.
  assert (E : (book_id <? 1)
              || (book_id >? Z.of_nat (List.length (books self))) = true).
  { apply orb_true_iff. destruct H; [left; apply Z.ltb_lt|right; apply Z.gtb_lt];
      lia. }
  rewrite E. reflexivity.
Qed.

(** For an index in range and a database that answers, the document of the
    chosen book is printed: its front matter, then the groups of its
    items. *)
Lemma export_markdown_in_range (self : ExportKobo) (book_id : Z) debug colors
  (rows : list item_row) :
  1 <= book_id <= Z.of_nat (List.length (books self)) ->
  path_exists w (db_path self) = true ->
  execute w ItemRows (db_path self) (select_query (db_version self))
  = inr rows ->
  exists book,
    nth_error (books self) (Z.to_nat (book_id - 1)) = Some book
    /\ export_markdown float_repr w self book_id debug colors
       = print (to_markdown book
                ++ List.concat
                     (map (render_group float_repr debug colors)
                          (spec_groups (items_of (books self) book rows)))).
Proof.
  intros Hr Hp Hx.
  destruct (nth_error (books self) (Z.to_nat (book_id - 1))) as [book|] eqn:En.
  2:{ apply nth_error_None in En. lia. }
  exists book. split; [reflexivity|].
  unfold export_markdown.
  assert (E : (book_id <? 1)
              || (book_id >? Z.of_nat (List.length (books self))) = false).
  { apply orb_false_iff. split; [apply Z.ltb_ge; lia|].
    rewrite Z.gtb_ltb. apply Z.ltb_ge; lia. }
  rewrite E, bind_ret_l, En, bind_ret_l.
  unfold _query. rewrite Hp. simpl negb. cbv iota. rewrite Hx, bind_ret_l.
  fold (items_of (books self) book rows).
  destruct (group_by_chapter_holds (items_of (books self) book rows))
    as (d & Ed & Hd).
  rewrite Ed, bind_ret_l, (sort_chapters_holds d _ Hd), bind_ret_l.
  rewrite (render_chapters_holds d _ _ debug colors _ Hd).
  - rewrite bind_ret_l. unfold spec_groups. now rewrite map_map.
  - destruct Hd as [-> _]. intros x Hx'.
    eapply Permutation_in; [apply sort_by_perm|exact Hx'].
Qed.

End ExportDocument.

(* ===================================================================== *)
(** ** Bookmarks *)
(* ===================================================================== *)

Lemma concat_map_nil {A} (f : A -> str) (l : list A) :
  (forall a, In a l -> f a = []) -> List.concat (map f l) = [].
Proof.
  induction l as [|a r IH]; intros H; simpl; [reflexivity|].
  rewrite (H a (or_introl eq_refl)), IH; [reflexivity|].
  intros; apply H; now right.
Qed.

Lemma kind_without_text (values : item_row) (b : option Book) :
  truthy (text (Item_init values b)) = false ->
  kind (Item_init values b) = BOOKMARK.
Proof.
  unfold Item_init. simpl. intros E. now rewrite E.
Qed.

Section Bookmarks.

Variable float_repr : float -> str.
Variable w : World.

(** C9: an item without text and without annotation is a bookmark and
    renders as the empty string; when it belongs to the exported book the
    heading of its chapter is in the document all the same, followed by the
    blocks of the chapter's items, which are empty when the chapter holds
    bookmarks only. *)
Theorem C9_bookmark_renders_nothing_heading_kept (self : ExportKobo)
  (book_id : Z) (debug : bool) (colors : option (list str))
  (rows : list item_row) (values : item_row) (b : option Book) :
  1 <= book_id <= Z.of_nat (List.length (books self)) ->
  path_exists w (db_path self) = true ->
  execute w ItemRows (db_path self) (select_query (db_version self))
  = inr rows ->
  In values rows ->
  truthy (text (Item_init values b)) = false ->
  truthy (annotation (Item_init values b)) = false ->
  kind (Item_init values b) = BOOKMARK
  /\ markdown float_repr (Item_init values b) debug colors = []
  /\ exists book,
      nth_error (books self) (Z.to_nat (book_id - 1)) = Some book
      /\ (VolumeID values = bk_volumeid book ->
          exists before l after,
            spec_groups (items_of (books self) book rows)
            = before ++ (Chapter values, l) :: after
            /\ export_markdown float_repr w self book_id debug colors
               = print (to_markdown book
                        ++ List.concat
                             (map (render_group float_repr debug colors)
                                  before)
                        ++ heading (Chapter values)
                        ++ List.concat
                             (map (fun i =>
                                     markdown float_repr i debug colors) l)
                        ++ List.concat
                             (map (render_group float_repr debug colors)
                                  after))
            /\ ((forall i, In i (items_of (books self) book rows) ->
                           chapter i = Chapter values ->
                           kind i = BOOKMARK) ->
                List.concat
                  (map (fun i => markdown float_repr i debug colors) l)
                = [])).
Proof.
  intros Hr Hp Hx Hin Ht _.
  pose proof (kind_without_text values b Ht) as Hk.
  split; [exact Hk|]. split; [now apply markdown_bookmark|].
  destruct (export_markdown_in_range float_repr w self book_id debug colors
              rows Hr Hp Hx) as (book & En & Ex).
  exists book. split; [exact En|]. intros Hv.
  set (items := items_of (books self) book rows) in *.
  set (it := Item_init values
               (dict_get (fold_left (fun d b0 => dict_set d (bk_volumeid b0) b0)
                                    (books self) [])
                         (VolumeID values))).
  assert (Hit : In it items).
  { unfold items, items_of. apply filter_In. split.
    - apply in_map_iff. exists values. split; [reflexivity|exact Hin].
    - simpl. rewrite Hv. apply opt_eqb_refl. }
  assert (Hg : In (Chapter values,
                   sort_by start_offset (of_chapter (Chapter values) items))
                  (spec_groups items)).
  { unfold spec_groups. apply in_map_iff. exists (Chapter values).
    split; [reflexivity|].
    eapply Permutation_in; [symmetry; apply sort_by_perm|].
    apply first_seen_In. change (Chapter values) with (chapter it).
    now apply in_map. }
  apply in_split in Hg as (before & after & Hs).
  exists before, (sort_by start_offset (of_chapter (Chapter values) items)),
    after.
  split; [exact Hs|]. split.
  - rewrite Ex, Hs, map_app, concat_app. cbn [map List.concat].
    unfold render_group at 2. cbn [fst snd]. unfold heading.
    now rewrite <- !app_assoc.
  - intros Hall. apply concat_map_nil. intros i Hi.
    apply markdown_bookmark.
    apply (Permutation_in _ (sort_by_perm start_offset _)) in Hi.
    unfold of_chapter in Hi. apply filter_In in Hi as [Hi Hc].
    apply opt_eqb_eq in Hc. now apply Hall.
Qed.

End Bookmarks.

Lemma C9_bookmark_witness :
  kind (Item_init row_mark None) = BOOKMARK
  /\ markdown float_repr_example (Item_init row_mark None) false None = []
  /\ exists book,
      nth_error (books (foo_kobo 174)) (Z.to_nat (1 - 1)) = Some book
      /\ (VolumeID row_mark = bk_volumeid book ->
          exists before l after,
            spec_groups (items_of (books (foo_kobo 174)) book [row_mark])
            = before ++ (Chapter row_mark, l) :: after
            /\ export_markdown float_repr_example (foo_world 174 [row_mark])
                 (foo_kobo 174) 1 false None
               = print (to_markdown book
                        ++ List.concat
                             (map (render_group float_repr_example false None)
                                  before)
                        ++ heading (Chapter row_mark)
                        ++ List.concat
                             (map (fun i =>
                                     markdown float_repr_example i false None)
                                  l)
                        ++ List.concat
                             (map (render_group float_repr_example false None)
                                  after))
            /\ ((forall i,
                    In i (items_of (books (foo_kobo 174)) book [row_mark]) ->
                    chapter i = Chapter row_mark ->
                    kind i = BOOKMARK) ->
                List.concat
                  (map (fun i => markdown float_repr_example i false None) l)
                = [])).
Proof.
  apply (C9_bookmark_renders_nothing_heading_kept float_repr_example
           (foo_world 174 [row_mark]) (foo_kobo 174) 1 false None
           [row_mark] row_mark None).
  - simpl. lia.
  - reflexivity.
  - reflexivity.
  - simpl. now left.
  - reflexivity.
  - reflexivity.
Defined.

(* ===================================================================== *)
(** ** The scenario of the book Foo *)
(* ===================================================================== *)

(** C6: for the book "Foo" by "Bar" with the highlights "B" (offset 5) and
    "A" (offset 2) in Ch1 (volume_index 0) and the annotation "C" with the
    note "note" in Ch2 (volume_index 1), the export without colour labels
    prints exactly [foo_document]: front matter, title line, Ch1 with "A"
    then "B", Ch2 with "C" and its note. It does so whether the rows come
    as listed or in the order of the query, for every schema version. *)
Theorem C6_foo_document (float_repr : float -> str) (v : Z) :
  export_markdown float_repr (foo_world v [row_B; row_A; row_C])
    (foo_kobo v) 1 false None
  = ([Stdout foo_document], inr tt)
  /\ export_markdown float_repr (foo_world v [row_A; row_B; row_C])
       (foo_kobo v) 1 false None
     = ([Stdout foo_document], inr tt)
  /\ map (fun r => markdown float_repr (Item_init r None) false None)
         [row_A; row_B; row_C]
     = [lit "> A" ++ nl ++ nl; lit "> B" ++ nl ++ nl;
        lit "> C" ++ nl ++ nl ++ lit "- note" ++ nl ++ nl].
Proof. repeat split; vm_compute; reflexivity. Qed.

(* ===================================================================== *)
(** ** main *)
(* ===================================================================== *)

Section Main.

Variable float_repr : float -> str.
Variable w : World.

Lemma no_usage_ret {A} (x : A) : no_usage (ret x).
Proof. intros []. Qed.

Lemma no_usage_bind {A B} (m : io A) (k : A -> io B) :
  no_usage m -> (forall x, no_usage (k x)) -> no_usage (bind m k).
Proof.
  unfold no_usage, output, bind. intros Hm Hk.
  destruct m as [out [h|x]]; simpl in *; [exact Hm|].
  specialize (Hk x). destruct (k x) as [out' r]. simpl in *.
  intros H. apply in_app_or in H. tauto.
Qed.

Lemma no_usage_print (s : str) : no_usage (print s).
Proof. intros [H|[]]. discriminate H. Qed.

Lemma no_usage_eprint (s : str) : no_usage (eprint s).
Proof. intros [H|[]]. discriminate H. Qed.

Lemma no_usage_stop {A} (h : halt) : no_usage (([], inl h) : io A).
Proof. intros []. Qed.

Lemma no_usage_foldM {A B} (f : B -> A -> io B) (l : list A) (acc : B) :
  (forall b a, no_usage (f b a)) -> no_usage (foldM f l acc).
Proof.
  intros Hf. revert acc. induction l as [|a r IH]; intros acc; simpl.
  - apply no_usage_ret.
  - apply no_usage_bind; [apply Hf|exact IH].
Qed.

Lemma no_usage_mapM {A B} (f : A -> io B) (l : list A) :
  (forall a, no_usage (f a)) -> no_usage (mapM f l).
Proof.
  intros Hf. induction l as [|a r IH]; simpl.
  - apply no_usage_ret.
  - apply no_usage_bind; [apply Hf|]. intros y.
    apply no_usage_bind; [exact IH|]. intros ys. apply no_usage_ret.
Qed.

Local Ltac quiet :=
  repeat first
    [ apply no_usage_ret | apply no_usage_print | apply no_usage_eprint
    | apply no_usage_stop
    | apply no_usage_bind; [|intros ?]
    | apply no_usage_foldM; intros ? ?
    | apply no_usage_mapM; intros ? ].

Lemma no_usage_query {sh : shape} (path : str) (q : string) :
  no_usage (_query w (sh := sh) path q).
Proof.
  unfold _query. destruct (negb (path_exists w path)).
  - quiet.
  - destruct (execute w sh path q); quiet.
Qed.

Lemma no_usage_getitem {V} (d : dict V) (k : option str) :
  no_usage (getitem d k).
Proof. unfold getitem. destruct (dict_get d k); quiet. Qed.

Lemma no_usage_init (path : str) : no_usage (ExportKobo_init w path).
Proof.
  unfold ExportKobo_init, _get_db_version, _load_books.
  quiet; try apply no_usage_query.
  destruct x; quiet.
Qed.

Lemma no_usage_list_books (self : ExportKobo) : no_usage (list_books self).
Proof.
  unfold list_books. quiet. destruct a as [i book]. apply no_usage_print.
Qed.

Lemma no_usage_export (self : ExportKobo) (book_id : Z) debug colors :
  no_usage (export_markdown float_repr w self book_id debug colors).
Proof.
  unfold export_markdown, group_by_chapter, sort_chapters, py_sorted,
    render_chapters, py_min, group_step.
  apply no_usage_bind.
  { destruct (_ || _); quiet. }
  intros _. apply no_usage_bind.
  { destruct (nth_error _ _); quiet. }
  intros book. apply no_usage_bind; [apply no_usage_query|]. intros rows.
  apply no_usage_bind.
  { apply no_usage_foldM. intros d it.
    apply no_usage_bind; [apply no_usage_getitem|]. intros; quiet. }
  intros d. apply no_usage_bind.
  { apply no_usage_bind.
    - apply no_usage_mapM. intros ch.
      apply no_usage_bind; [apply no_usage_getitem|]. intros l.
      destruct (map volume_index l); quiet.
    - intros; quiet. }
  intros cs. apply no_usage_bind.
  { apply no_usage_foldM. intros out ch.
    apply no_usage_bind; [apply no_usage_getitem|]. intros; quiet. }
  intros; quiet.
Qed.

End Main.

Section Invocation.

Variable float_repr : float -> str.
Variable w : World.

(** With [--bookid 0] and no [--list] the database is opened and nothing
    else is done: the test of line 196 takes 0 for "no book given". *)
Lemma main_bookid_zero (args : Args) :
  a_list args = false -> a_bookid args = Some 0 ->
  main float_repr w args
  = bind (ExportKobo_init w (a_db args)) (fun _ => ret tt).
Proof.
  intros Hl Hb. unfold main. rewrite Hl, Hb. simpl negb. cbn [andb].
  now rewrite bind_ret_l.
Qed.

(** C8, as amended: the usage text is printed, and the run ends with status
    1, exactly when neither [--list] nor [--bookid] is given; in every other
    case no usage text is printed, and when both are given the run is the
    one of [--list] alone. *)
Theorem C8_usage_exactly_when_neither_flag (args : Args) :
  (neither args = true ->
   main float_repr w args = ([PrintHelp], inl (SystemExit 1)))
  /\ (neither args = false -> no_usage (main float_repr w args))
  /\ (a_list args = true ->
      main float_repr w args = main float_repr w (without_bookid args)).
Proof.
  unfold neither. split; [|split].
  - intros H. unfold main. rewrite H. reflexivity.
  - intros H. unfold main.
    destruct (a_bookid args) as [b|] eqn:Eb.
    + rewrite andb_false_r, bind_ret_l.
      apply no_usage_bind; [apply no_usage_init|]. intros kobo.
      destruct (a_list args); [apply no_usage_list_books|].
      destruct (negb (b =? 0)); [apply no_usage_export|apply no_usage_ret].
    + rewrite andb_true_r in H. rewrite H. apply no_usage_bind.
      { apply no_usage_ret. }
      intros _. apply no_usage_bind; [apply no_usage_init|]. intros kobo.
      destruct (a_list args); [apply no_usage_list_books|apply no_usage_ret].
  - intros H. unfold main, without_bookid. simpl. now rewrite H.
Qed.

End Invocation.

Lemma C8_usage_witness :
  main float_repr_example (foo_world 175 []) (example_args false None)
  = ([PrintHelp], inl (SystemExit 1))
  /\ no_usage (main float_repr_example (foo_world 175 [])
                 (example_args false (Some 1)))
  /\ main float_repr_example (foo_world 175 []) (example_args true (Some 1))
     = main float_repr_example (foo_world 175 [])
         (without_bookid (example_args true (Some 1))).
Proof.
  split; [|split].
  - apply (proj1 (C8_usage_exactly_when_neither_flag float_repr_example
                    (foo_world 175 []) (example_args false None))).
    reflexivity.
  - apply (proj1 (proj2 (C8_usage_exactly_when_neither_flag float_repr_example
                           (foo_world 175 [])
                           (example_args false (Some 1))))).
    reflexivity.
  - apply (proj2 (proj2 (C8_usage_exactly_when_neither_flag float_repr_example
                           (foo_world 175 [])
                           (example_args true (Some 1))))).
    reflexivity.
Defined.

(** C8, as stated, fails when both flags are given: the run lists the
    books and ends with status 0; it prints no usage text. *)
Lemma C8_both_flags_list_the_books :
  exactly_one (example_args true (Some 1)) = false
  /\ main float_repr_example (foo_world 175 []) (example_args true (Some 1))
     = ([Stdout (lit "ID   AUTHOR                         TITLE");
         Stdout (repeat 45%N 80);
         Stdout (lit "1    Bar                            Foo")],
        inr tt)
  /\ exit_code (main float_repr_example (foo_world 175 [])
                  (example_args true (Some 1))) = 0
  /\ main float_repr_example (foo_world 175 []) (example_args true (Some 1))
     <> ([PrintHelp], inl (SystemExit 1)).
Proof.
  split; [reflexivity|]. split; [vm_compute; reflexivity|].
  split; [reflexivity|]. vm_compute. discriminate.
Qed.

(** C4: at [--bookid 0] the program does not report the index: it opens
    the database, prints nothing and ends with status 0, while
    [export_markdown] itself, given 0, reports the range and stops with
    status 1. *)
Theorem C4_bookid_zero_is_not_reported (float_repr : float -> str) (v : Z)
  (rows : list item_row) :
  main float_repr (foo_world v rows) (example_args false (Some 0))
  = ([], inr tt)
  /\ exit_code (main float_repr (foo_world v rows)
                  (example_args false (Some 0))) = 0
  /\ export_markdown float_repr (foo_world v rows) (foo_kobo v) 0 false None
     = ([Stderr (lit "Error: bookid must be between 1 and 1")],
        inl (SystemExit 1)).
Proof. repeat split. Qed.

(* ===================================================================== *)
(** ** Further properties: trimming *)
(* ===================================================================== *)

Lemma lstrip_split (s : str) :
  exists pre, s = pre ++ lstrip s /\ blank pre.
Proof.
  unfold blank. induction s as [|c r (pre & E & Hb)]; simpl.
  - exists []. now split.
  - destruct (isspace c) eqn:Ec.
    + exists (c :: pre). simpl. rewrite Ec, Hb. split; [|reflexivity].
      now rewrite <- E.
    + exists []. now split.
Qed.

Lemma blank_rev (s : str) : blank s -> blank (rev s).
Proof.
  unfold blank. rewrite !forallb_forall. intros H x Hx.
  apply H. now apply in_rev.
Qed.

Lemma rstrip_split (s : str) :
  exists post, s = rstrip s ++ post /\ blank post.
Proof.
  destruct (lstrip_split (rev s)) as (pre & E & Hb).
  exists (rev pre). split; [|now apply blank_rev].
  unfold rstrip. rewrite <- rev_app_distr, <- E. now rewrite rev_involutive.
Qed.

Lemma lstrip_fixed_prefix (s t post : str) :
  lstrip s = s -> s = t ++ post -> lstrip t = t.
Proof.
  intros Hs E. destruct t as [|c t']; [reflexivity|].
  subst s. simpl in *. destruct (isspace c); [|reflexivity].
  exfalso.
  destruct (lstrip_split (t' ++ post)) as (pre & E & _).
  rewrite Hs in E. apply (f_equal (@List.length N)) in E.
  simpl in E. rewrite !length_app in E. simpl in E.
  rewrite ?length_app in E. lia.
Qed.

Lemma strip_stripped (s : str) : stripped (strip s).
Proof.
  unfold stripped. split; [|apply rstrip_strip].
  unfold strip. destruct (rstrip_split (lstrip s)) as (post & E & _).
  eapply lstrip_fixed_prefix; [apply lstrip_idem|exact E].
Qed.

(** The text of an item is what is left of the [Text] column once the
    white space at both ends is taken away: the column is the text between
    two blank strings, and the text neither starts nor ends with white
    space. An empty column gives no text. *)
Theorem Item_text_is_trimmed (values : item_row) (b : option Book) :
  (forall s, Text values = Some s -> s <> [] ->
     exists pre t post,
       text (Item_init values b) = Some t
       /\ s = pre ++ t ++ post
       /\ blank pre /\ blank post /\ stripped t)
  /\ (truthy (Text values) = false -> text (Item_init values b) = None).
Proof.
  split.
  - intros s E Hs.
    destruct (lstrip_split s) as (pre & E1 & Hpre).
    destruct (rstrip_split (lstrip s)) as (post & E2 & Hpost).
    exists pre, (strip s), post.
    split; [|split; [|split; [exact Hpre|split; [exact Hpost|]]]].
    + unfold Item_init; simpl. rewrite E.
      destruct s; [congruence|]. simpl. now rewrite rstrip_strip.
    + unfold strip. now rewrite <- E2.
    + apply strip_stripped.
  - intros H. unfold Item_init; simpl. now rewrite H.
Qed.

Lemma Item_text_is_trimmed_witness :
  (exists pre t post,
      text (Item_init row_plain None) = Some t
      /\ lit " x " = pre ++ t ++ post
      /\ blank pre /\ blank post /\ stripped t)
  /\ text (Item_init row_mark None) = None.
Proof.
  split.
  - apply (proj1 (Item_text_is_trimmed row_plain None) (lit " x ") eq_refl).
    discriminate.
  - apply (proj2 (Item_text_is_trimmed row_mark None)). reflexivity.
Defined.

(* ===================================================================== *)
(** ** Further properties: the block of an item *)
(* ===================================================================== *)

Section Blocks.

Variable float_repr : float -> str.

(** The block of an item is empty exactly for a bookmark; every other
    block starts with the quote mark and a space and ends with an empty
    line, whatever the options. *)
Theorem markdown_block_shape (it : Item) (debug : bool)
  (colors : option (list str)) :
  (markdown float_repr it debug colors = [] <-> kind it = BOOKMARK)
  /\ (kind it <> BOOKMARK ->
      startswith (markdown float_repr it debug colors) (lit "> ") = true
      /\ endswith (markdown float_repr it debug colors) (nl ++ nl) = true).
Proof.
  unfold markdown.
  set (prefix :=
         if truthy_list colors && (0 <=? color it)
            && (color it <? Z.of_nat (List.length (or_default colors [])))
         then nth (Z.to_nat (color it)) (or_default colors []) [] ++ lit " "
         else []).
  set (d := if debug then debug_info_of float_repr it else []).
  destruct (kind it); (split; [split; try discriminate; try reflexivity|]).
  - intros _. split; [apply startswith_app|].
    replace (lit "> " ++ prefix ++ str_of_opt (text it) ++ d ++ nl ++ nl
             ++ lit "- " ++ str_of_opt (annotation it) ++ nl ++ nl)
      with ((lit "> " ++ prefix ++ str_of_opt (text it) ++ d ++ nl ++ nl
             ++ lit "- " ++ str_of_opt (annotation it)) ++ nl ++ nl)
      by now rewrite <- !app_assoc.
    apply endswith_app.
  - intros H. now destruct H.
  - intros _. split; [apply startswith_app|].
    replace (lit "> " ++ prefix ++ str_of_opt (text it) ++ d ++ nl ++ nl)
      with ((lit "> " ++ prefix ++ str_of_opt (text it) ++ d) ++ nl ++ nl)
      by now rewrite <- !app_assoc.
    apply endswith_app.
Qed.

End Blocks.

Lemma markdown_block_shape_witness :
  startswith (markdown float_repr_example (Item_init row_C None) true
                (Some two_labels)) (lit "> ") = true
  /\ endswith (markdown float_repr_example (Item_init row_C None) true
                 (Some two_labels)) (nl ++ nl) = true.
Proof.
  apply (proj2 (markdown_block_shape float_repr_example (Item_init row_C None)
                  true (Some two_labels))).
  discriminate.
Defined.

(* ===================================================================== *)
(** ** Further properties: the exported document *)
(* ===================================================================== *)

Lemma filter_map_swap {A B} (p : B -> bool) (f : A -> B) (l : list A) :
  filter p (map f l) = map f (filter (fun a => p (f a)) l).
Proof.
  induction l as [|a r IH]; simpl; [reflexivity|].
  destruct (p (f a)); simpl; now rewrite IH.
Qed.

(** The items of a book come from the rows of the book, one per row. *)
Lemma items_of_rows (bs : list Book) (book : Book) (rows : list item_row) :
  items_of bs book rows
  = map (fun r =>
           Item_init r
             (dict_get (fold_left (fun d b => dict_set d (bk_volumeid b) b)
                                  bs [])
                       (VolumeID r)))
        (filter (of_book book) rows).
Proof. unfold items_of. now rewrite filter_map_swap. Qed.

Section Document.

Variable float_repr : float -> str.

(** Every row of the chosen book is rendered: the document holds the
    heading of the row's chapter and, in the part of that chapter, the
    block of the row's item. *)
Theorem export_markdown_renders_every_row (w : World) (self : ExportKobo)
  (book_id : Z) (debug : bool) (colors : option (list str))
  (rows : list item_row) (values : item_row) :
  1 <= book_id <= Z.of_nat (List.length (books self)) ->
  path_exists w (db_path self) = true ->
  execute w ItemRows (db_path self) (select_query (db_version self))
  = inr rows ->
  In values rows ->
  exists book,
    nth_error (books self) (Z.to_nat (book_id - 1)) = Some book
    /\ (of_book book values = true ->
        exists bk before l1 l2 after,
          spec_groups (items_of (books self) book rows)
          = before ++ (Chapter values, l1 ++ Item_init values bk :: l2)
                      :: after
          /\ export_markdown float_repr w self book_id debug colors
             = print (to_markdown book
                      ++ List.concat
                           (map (render_group float_repr debug colors) before)
                      ++ heading (Chapter values)
                      ++ List.concat
                           (map (fun i => markdown float_repr i debug colors)
                                l1)
                      ++ markdown float_repr (Item_init values bk) debug
                           colors
                      ++ List.concat
                           (map (fun i => markdown float_repr i debug colors)
                                l2)
                      ++ List.concat
                           (map (render_group float_repr debug colors)
                                after))).
Proof.
  intros Hr Hp Hx Hin.
  destruct (export_markdown_in_range float_repr w self book_id debug colors
              rows Hr Hp Hx) as (book & En & Ex).
  exists book. split; [exact En|]. intros Hv.
  set (items := items_of (books self) book rows) in *.
  set (it := Item_init values
               (dict_get (fold_left (fun d b0 => dict_set d (bk_volumeid b0) b0)
                                    (books self) [])
                         (VolumeID values))).
  assert (Hit : In it items).
  { unfold items. rewrite items_of_rows. apply in_map_iff.
    exists values. split; [reflexivity|]. apply filter_In. now split. }
  assert (Hb : In it (sort_by start_offset (of_chapter (Chapter values) items))).
  { eapply Permutation_in; [symmetry; apply sort_by_perm|].
    unfold of_chapter. apply filter_In. split; [exact Hit|].
    apply opt_eqb_refl. }
  assert (Hg : In (Chapter values,
                   sort_by start_offset (of_chapter (Chapter values) items))
                  (spec_groups items)).
  { unfold spec_groups. apply in_map_iff. exists (Chapter values).
    split; [reflexivity|].
    eapply Permutation_in; [symmetry; apply sort_by_perm|].
    apply first_seen_In. change (Chapter values) with (chapter it).
    now apply in_map. }
  apply in_split in Hg as (before & after & Hs).
  apply in_split in Hb as (l1 & l2 & Hl).
  exists (dict_get (fold_left (fun d b0 => dict_set d (bk_volumeid b0) b0)
                              (books self) [])
                   (VolumeID values)), before, l1, l2, after.
  fold it. split; [now rewrite Hs, Hl|].
  rewrite Ex, Hs, map_app, concat_app. cbn [map List.concat].
  unfold render_group at 2. cbn [fst snd]. rewrite Hl.
  rewrite map_app, concat_app. cbn [map List.concat]. unfold heading.
  now rewrite <- !app_assoc.
Qed.

(** The run of [export_markdown] looks at the world only through the file
    test and the rows of the chosen book in the answer to the chosen
    query: two worlds that agree on these give the same run. The rows of
    other books change nothing. *)
Theorem export_markdown_only_reads_the_book (w1 w2 : World)
  (self : ExportKobo) (book_id : Z) (debug : bool)
  (colors : option (list str)) (rows1 rows2 : list item_row) :
  path_exists w1 (db_path self) = true ->
  path_exists w2 (db_path self) = true ->
  execute w1 ItemRows (db_path self) (select_query (db_version self))
  = inr rows1 ->
  execute w2 ItemRows (db_path self) (select_query (db_version self))
  = inr rows2 ->
  (forall book,
      nth_error (books self) (Z.to_nat (book_id - 1)) = Some book ->
      filter (of_book book) rows1 = filter (of_book book) rows2) ->
  export_markdown float_repr w1 self book_id debug colors
  = export_markdown float_repr w2 self book_id debug colors.
Proof.
  intros Hp1 Hp2 Hx1 Hx2 Hrows.
  destruct (Z.ltb_spec book_id 1) as [Hlo|Hlo].
  { rewrite !export_markdown_out_of_range by (left; lia). reflexivity. }
  destruct (Z.ltb_spec (Z.of_nat (List.length (books self))) book_id)
    as [Hhi|Hhi].
  { rewrite !export_markdown_out_of_range by (right; lia). reflexivity. }
  destruct (export_markdown_in_range float_repr w1 self book_id debug colors
              rows1 (conj Hlo Hhi) Hp1 Hx1) as (b1 & En1 & E1).
  destruct (export_markdown_in_range float_repr w2 self book_id debug colors
              rows2 (conj Hlo Hhi) Hp2 Hx2) as (b2 & En2 & E2).
  assert (b2 = b1) by congruence. subst b2.
  rewrite E1, E2, !items_of_rows, (Hrows b1 En1). reflexivity.
Qed.

Lemma export_markdown_cases (w : World) (self : ExportKobo)
  (book_id : Z) (debug : bool) (colors : option (list str)) :
  (exists document rows,
      1 <= book_id <= Z.of_nat (List.length (books self))
      /\ path_exists w (db_path self) = true
      /\ execute w ItemRows (db_path self) (select_query (db_version self))
         = inr rows
      /\ export_markdown float_repr w self book_id debug colors
         = ([Stdout document], inr tt))
  \/ (exists msg,
         export_markdown float_repr w self book_id debug colors
         = fails_with msg).
Proof.
  destruct (Z.ltb_spec book_id 1) as [Hlo|Hlo].
  { right. eexists. apply export_markdown_out_of_range. left; lia. }
  destruct (Z.ltb_spec (Z.of_nat (List.length (books self))) book_id)
    as [Hhi|Hhi].
  { right. eexists. apply export_markdown_out_of_range. right; lia. }
  destruct (path_exists w (db_path self)) eqn:Hp.
  - destruct (execute w ItemRows (db_path self)
                (select_query (db_version self))) as [e|rows] eqn:Hx.
    + right. exists (lit "Error reading database: " ++ e).
      unfold export_markdown, _query.
      destruct (nth_error (books self) (Z.to_nat (book_id - 1))) eqn:En.
      2:{ apply nth_error_None in En. lia. }
      replace ((book_id <? 1)
               || (book_id >? Z.of_nat (List.length (books self))))
        with false.
      2:{ symmetry. apply orb_false_iff. split; [apply Z.ltb_ge; lia|].
          rewrite Z.gtb_ltb. apply Z.ltb_ge; lia. }
      rewrite Hp, Hx. reflexivity.
    + left.
      destruct (export_markdown_in_range float_repr w self book_id debug
                  colors rows (conj Hlo Hhi) Hp Hx) as (b & _ & E).
      eexists. exists rows. repeat split; try assumption. exact E.
  - right. exists (lit "Error: Cannot read " ++ db_path self).
    unfold export_markdown, _query.
    destruct (nth_error (books self) (Z.to_nat (book_id - 1))) eqn:En.
    2:{ apply nth_error_None in En. lia. }
    replace ((book_id <? 1)
             || (book_id >? Z.of_nat (List.length (books self))))
      with false.
    2:{ symmetry. apply orb_false_iff. split; [apply Z.ltb_ge; lia|].
        rewrite Z.gtb_ltb. apply Z.ltb_ge; lia. }
    rewrite Hp. reflexivity.
Qed.

(** [export_markdown] prints the whole document or nothing of it: either
    the index is in range, the file is there and the query answers, and the
    run prints one text and returns; or the run writes one error message,
    prints nothing and ends with status 1. *)
Theorem export_markdown_all_or_nothing (w : World) (self : ExportKobo)
  (book_id : Z) (debug : bool) (colors : option (list str)) :
  (exists document rows,
      1 <= book_id <= Z.of_nat (List.length (books self))
      /\ path_exists w (db_path self) = true
      /\ execute w ItemRows (db_path self) (select_query (db_version self))
         = inr rows
      /\ export_markdown float_repr w self book_id debug colors
         = ([Stdout document], inr tt))
  \/ (exists msg,
         export_markdown float_repr w self book_id debug colors
         = fails_with msg).
Proof. apply export_markdown_cases. Qed.

End Document.

Lemma export_markdown_renders_every_row_witness :
  exists book,
    nth_error (books (foo_kobo 175)) (Z.to_nat (1 - 1)) = Some book
    /\ (of_book book row_A = true ->
        exists bk before l1 l2 after,
          spec_groups (items_of (books (foo_kobo 175)) book
                         [row_B; row_A; row_C])
          = before ++ (Chapter row_A, l1 ++ Item_init row_A bk :: l2)
                      :: after
          /\ export_markdown float_repr_example
               (foo_world 175 [row_B; row_A; row_C]) (foo_kobo 175) 1 false
               None
             = print (to_markdown book
                      ++ List.concat
                           (map (render_group float_repr_example false None)
                                before)
                      ++ heading (Chapter row_A)
                      ++ List.concat
                           (map (fun i =>
                                   markdown float_repr_example i false None)
                                l1)
                      ++ markdown float_repr_example (Item_init row_A bk)
                           false None
                      ++ List.concat
                           (map (fun i =>
                                   markdown float_repr_example i false None)
                                l2)
                      ++ List.concat
                           (map (render_group float_repr_example false None)
                                after))).
Proof.
  apply (export_markdown_renders_every_row float_repr_example
           (foo_world 175 [row_B; row_A; row_C]) (foo_kobo 175) 1 false None
           [row_B; row_A; row_C] row_A).
  - simpl. lia.
  - reflexivity.
  - reflexivity.
  - simpl. tauto.
Defined.

Lemma export_markdown_only_reads_the_book_witness :
  export_markdown float_repr_example (foo_world 175 [row_other; row_A])
    (foo_kobo 175) 1 false None
  = export_markdown float_repr_example (foo_world 175 [row_A])
      (foo_kobo 175) 1 false None.
Proof.
  apply (export_markdown_only_reads_the_book float_repr_example
           (foo_world 175 [row_other; row_A]) (foo_world 175 [row_A])
           (foo_kobo 175) 1 false None [row_other; row_A] [row_A]).
  - reflexivity.
  - reflexivity.
  - reflexivity.
  - reflexivity.
  - intros book E. simpl in E. injection E as <-. reflexivity.
Defined.

(* ===================================================================== *)
(** ** Further properties: the listing *)
(* ===================================================================== *)

Lemma foldM_print {A} (f : unit -> A -> io unit) (g : A -> str)
  (l : list A) :
  (forall u a, f u a = print (g a)) ->
  foldM f l tt = (map (fun a => Stdout (g a)) l, inr tt).
Proof.
  intros Hf. induction l as [|a r IH]; simpl; [reflexivity|].
  rewrite Hf. unfold print, bind. now rewrite IH.
Qed.

Lemma list_books_lines (self : ExportKobo) :
  list_books self
  = (Stdout (lit "ID   AUTHOR                         TITLE")
     :: Stdout (repeat 45%N 80)
     :: map (fun ib => Stdout (listing_line ib)) (enumerate1 (books self)),
     inr tt).
Proof.
  unfold list_books.
  rewrite (foldM_print _ listing_line); [reflexivity|].
  intros u [i book]. reflexivity.
Qed.


(** [--list] prints the two header lines and one line per book, in the
    order of the catalogue, and returns; the author column of a line is
    always 30 characters wide and reads "Unknown" for a book without
    author. *)
Theorem list_books_prints_one_line_per_book (self : ExportKobo) :
  list_books self
  = (Stdout (lit "ID   AUTHOR                         TITLE")
     :: Stdout (repeat 45%N 80)
     :: map (fun ib => Stdout (listing_line ib)) (enumerate1 (books self)),
     inr tt)
  /\ List.length (enumerate1 (books self)) = List.length (books self)
  /\ (forall book, List.length (author_column book) = 30%nat)
  /\ (forall book, truthy (author book) = false ->
                   author_column book = ljust 30 (lit "Unknown")).
Proof.
  split; [apply list_books_lines|]. split; [|split].
  - unfold enumerate1.
    rewrite length_combine, length_map, length_seq. apply Nat.min_id.
  - intros book. unfold author_column, ljust.
    rewrite length_app, repeat_length, length_firstn. lia.
  - intros book H. unfold author_column. now rewrite H.
Qed.

Lemma list_books_witness :
  author_column anonymous_book = ljust 30 (lit "Unknown").
Proof.
  apply (proj2 (proj2 (proj2 (list_books_prints_one_line_per_book
                                (foo_kobo 175))))).
  reflexivity.
Defined.



(* ===================================================================== *)
(** ** Further properties: the command line *)
(* ===================================================================== *)

Section CommandLine.

Variable float_repr : float -> str.
Variable w : World.

Lemma init_ok (db : str) (r : version_row) (rs : list version_row)
  (brows : list book_row) :
  path_exists w db = true ->
  execute w VersionRows db QUERY_DB_VERSION = inr (r :: rs) ->
  execute w BookRows db QUERY_BOOKS = inr brows ->
  ExportKobo_init w db
  = ret {| db_path := db; db_version := version r;
           books := map Book_init brows |}.
Proof.
  intros Hp Hv Hb.
  unfold ExportKobo_init, _get_db_version, _load_books, _query.
  rewrite Hp. simpl negb. cbv iota. rewrite Hv, Hb.
  now rewrite !bind_ret_l.
Qed.




(** Without the database file every run that passes the test of the
    flags stops with "Cannot read" and status 1, before the flags are
    looked at again: nothing is listed or exported, and no index is
    reported. *)
Theorem main_missing_database (args : Args) :
  neither args = false ->
  path_exists w (a_db args) = false ->
  main float_repr w args
  = fails_with (lit "Error: Cannot read " ++ a_db args).
Proof.
  intros Hn Hp. unfold neither in Hn. unfold main. rewrite Hn, bind_ret_l.
  unfold ExportKobo_init, _get_db_version, _query. rewrite Hp.
  reflexivity.
Qed.

(** An error of the database while the version or the catalogue is read
    ends the run with the message of the error and status 1. *)
Theorem main_database_error (args : Args) (e : str) :
  neither args = false ->
  path_exists w (a_db args) = true ->
  (execute w VersionRows (a_db args) QUERY_DB_VERSION = inl e ->
   main float_repr w args = fails_with (lit "Error reading database: " ++ e))
  /\ (forall r rs,
        execute w VersionRows (a_db args) QUERY_DB_VERSION = inr (r :: rs) ->
        execute w BookRows (a_db args) QUERY_BOOKS = inl e ->
        main float_repr w args
        = fails_with (lit "Error reading database: " ++ e)).
Proof.
  intros Hn Hp. unfold neither in Hn. split.
  - intros Hv. unfold main. rewrite Hn, bind_ret_l.
    unfold ExportKobo_init, _get_db_version, _query. rewrite Hp, Hv.
    reflexivity.
  - intros r rs Hv Hb. unfold main. rewrite Hn, bind_ret_l.
    unfold ExportKobo_init, _get_db_version, _load_books, _query.
    rewrite Hp, Hv, Hb. reflexivity.
Qed.

(** With [--bookid b] for a [b] other than 0, without [--list], on a
    database that gives its version and its catalogue, an index below 1 or
    above the number of books is reported with the valid range, and the
    run ends with status 1. *)
Theorem main_reports_index_out_of_range (args : Args) (b : Z)
  (r : version_row) (rs : list version_row) (brows : list book_row) :
  a_list args = false -> a_bookid args = Some b -> b <> 0 ->
  path_exists w (a_db args) = true ->
  execute w VersionRows (a_db args) QUERY_DB_VERSION = inr (r :: rs) ->
  execute w BookRows (a_db args) QUERY_BOOKS = inr brows ->
  b < 1 \/ b > Z.of_nat (List.length brows) ->
  main float_repr w args
  = fails_with (lit "Error: bookid must be between 1 and "
                ++ str_of_Z (Z.of_nat (List.length brows))).
Proof.
  intros Hl Hb Hz Hp Hv Hbk Hr. unfold main.
  rewrite Hl, Hb. simpl negb. cbn [andb]. rewrite bind_ret_l.
  rewrite (init_ok _ r rs brows Hp Hv Hbk), bind_ret_l.
  apply Z.eqb_neq in Hz. rewrite Hz. simpl negb. cbv iota.
  rewrite export_markdown_out_of_range.
  - cbn [books]. now rewrite length_map.
  - cbn [books]. now rewrite length_map.
Qed.

(** [--no-colors] wins over [--colors]; an empty [--colors] is the same
    as none; and with [--list] the labels play no part. *)
Theorem main_colour_options (args : Args) :
  (a_no_colors args = true ->
   main float_repr w args = main float_repr w (with_colors None args))
  /\ (a_colors args = Some [] ->
      main float_repr w args = main float_repr w (with_colors None args))
  /\ (a_list args = true ->
      forall c,
        main float_repr w args = main float_repr w (with_colors c args)).
Proof.
  split; [|split].
  - intros H. unfold main, with_colors. simpl. now rewrite H.
  - intros H. unfold main, with_colors. simpl. now rewrite H.
  - intros H c. unfold main, with_colors. simpl. rewrite H. simpl.
    rewrite ?bind_ret_l.
    destruct (ExportKobo_init w (a_db args)) as [out [h|kobo]]; reflexivity.
Qed.

End CommandLine.

Section CommandLineExport.

Variable float_repr : float -> str.
Variable w : World.

(** With [--bookid b] for [b] from 1 to the number of books, without
    [--list], on a database that answers the three queries, the run prints
    one text, the document of the [b]-th book of the catalogue, which
    starts with the front matter of that book, and returns with status 0. *)
Theorem main_exports_the_chosen_book (args : Args) (b : Z)
  (r : version_row) (rs : list version_row) (brows : list book_row)
  (rows : list item_row) :
  a_list args = false -> a_bookid args = Some b ->
  1 <= b <= Z.of_nat (List.length brows) ->
  path_exists w (a_db args) = true ->
  execute w VersionRows (a_db args) QUERY_DB_VERSION = inr (r :: rs) ->
  execute w BookRows (a_db args) QUERY_BOOKS = inr brows ->
  execute w ItemRows (a_db args) (select_query (version r)) = inr rows ->
  exists brow rest,
    nth_error brows (Z.to_nat (b - 1)) = Some brow
    /\ main float_repr w args
       = ([Stdout (to_markdown (Book_init brow) ++ rest)], inr tt)
    /\ exit_code (main float_repr w args) = 0.
Proof.
  intros Hl Hb Hr Hp Hv Hbk Hx. unfold main.
  rewrite Hl, Hb. simpl negb. cbn [andb]. rewrite bind_ret_l.
  rewrite (init_ok w _ r rs brows Hp Hv Hbk), bind_ret_l.
  assert (Hz : (b =? 0) = false) by (apply Z.eqb_neq; lia).
  rewrite Hz. simpl negb. cbv iota.
  set (kobo := {| db_path := a_db args; db_version := version r;
                  books := map Book_init brows |}).
  set (colors := if a_no_colors args then None else _).
  assert (Hr' : 1 <= b <= Z.of_nat (List.length (books kobo))).
  { unfold kobo. cbn [books]. now rewrite length_map. }
  destruct (export_markdown_in_range float_repr w kobo b (a_debug args)
              colors rows Hr' Hp Hx) as (book & En & Ex).
  unfold kobo in En. cbn [books] in En. rewrite nth_error_map in En.
  destruct (nth_error brows (Z.to_nat (b - 1))) as [brow|] eqn:Eb;
    [|discriminate].
  injection En as <-.
  exists brow. eexists. split; [reflexivity|].
  rewrite Ex. split; reflexivity.
Qed.

End CommandLineExport.

Lemma main_exports_the_chosen_book_witness :
  exists brow rest,
    nth_error [ {| b_VolumeID := Some (lit "foo.epub");
                   b_Title := Some (lit "Foo");
                   b_Author := Some (lit "Bar"); b_Items := 3 |} ]
              (Z.to_nat (1 - 1)) = Some brow
    /\ main float_repr_example (foo_world 174 [row_A])
         (example_args false (Some 1))
       = ([Stdout (to_markdown (Book_init brow) ++ rest)], inr tt)
    /\ exit_code (main float_repr_example (foo_world 174 [row_A])
                    (example_args false (Some 1))) = 0.
Proof.
  apply (main_exports_the_chosen_book float_repr_example
           (foo_world 174 [row_A]) (example_args false (Some 1)) 1
           {| version := 174 |} [] _ [row_A]).
  - reflexivity.
  - reflexivity.
  - simpl. lia.
  - reflexivity.
  - reflexivity.
  - reflexivity.
  - reflexivity.
Defined.

Lemma main_missing_database_witness :
  main float_repr_example no_file_world (example_args false (Some 7))
  = fails_with (lit "Error: Cannot read " ++ lit "KoboReader.sqlite").
Proof.
  apply (main_missing_database float_repr_example no_file_world
           (example_args false (Some 7))).
  - reflexivity.
  - reflexivity.
Defined.

Lemma main_database_error_witness :
  main float_repr_example (broken_world (lit "file is not a database"))
    (example_args true None)
  = fails_with (lit "Error reading database: "
                ++ lit "file is not a database").
Proof.
  apply (proj1 (main_database_error float_repr_example
                  (broken_world (lit "file is not a database"))
                  (example_args true None) (lit "file is not a database")
                  eq_refl eq_refl)).
  reflexivity.
Defined.

Lemma main_reports_index_out_of_range_witness :
  main float_repr_example (foo_world 175 [row_A])
    (example_args false (Some (-1)))
  = fails_with (lit "Error: bookid must be between 1 and "
                ++ str_of_Z (Z.of_nat 1)).
Proof.
  apply (main_reports_index_out_of_range float_repr_example
           (foo_world 175 [row_A]) (example_args false (Some (-1))) (-1)
           {| version := 175 |} []
           [ {| b_VolumeID := Some (lit "foo.epub");
                b_Title := Some (lit "Foo");
                b_Author := Some (lit "Bar"); b_Items := 3 |} ]).
  - reflexivity.
  - reflexivity.
  - lia.
  - reflexivity.
  - reflexivity.
  - reflexivity.
  - left. lia.
Defined.

Lemma main_colour_options_witness :
  main float_repr_example (foo_world 175 [row_A])
    {| a_db := lit "KoboReader.sqlite"; a_list := false;
       a_bookid := Some 1; a_debug := false; a_colors := Some (lit "y,r");
       a_no_colors := true |}
  = main float_repr_example (foo_world 175 [row_A])
      (with_colors None
         {| a_db := lit "KoboReader.sqlite"; a_list := false;
            a_bookid := Some 1; a_debug := false;
            a_colors := Some (lit "y,r"); a_no_colors := true |}).
Proof.
  apply (proj1 (main_colour_options float_repr_example
                  (foo_world 175 [row_A])
                  {| a_db := lit "KoboReader.sqlite"; a_list := false;
                     a_bookid := Some 1; a_debug := false;
                     a_colors := Some (lit "y,r"); a_no_colors := true |})).
  reflexivity.
Defined.

(* ===================================================================== *)
(** ** Further properties: the labels of [--colors] *)
(* ===================================================================== *)

Lemma strip_split (s : str) :
  exists pre post, s = pre ++ strip s ++ post /\ blank pre /\ blank post.
Proof.
  destruct (lstrip_split s) as (pre & E1 & Hpre).
  destruct (rstrip_split (lstrip s)) as (post & E2 & Hpost).
  exists pre, post. split; [|now split].
  unfold strip. now rewrite <- E2.
Qed.

Lemma split_not_nil (sep : N) (s : str) : split sep s <> [].
Proof.
  destruct s as [|c r]; simpl; [discriminate|].
  destruct (c =? sep)%N; [discriminate|].
  destruct (split sep r); discriminate.
Qed.

Lemma split_length (sep : N) (s : str) :
  List.length (split sep s) = S (count_occ N.eq_dec s sep).
Proof.
  induction s as [|c r IH]; simpl; [reflexivity|].
  destruct (N.eqb_spec c sep) as [->|Hne].
  - destruct (N.eq_dec sep sep); [|congruence]. simpl. now rewrite IH.
  - destruct (N.eq_dec c sep); [contradiction|].
    rewrite <- IH. now destruct (split sep r).
Qed.

Lemma split_no_sep (sep : N) (s : str) :
  Forall (fun f => ~ In sep f) (split sep s).
Proof.
  induction s as [|c r IH]; simpl.
  - constructor; [tauto|constructor].
  - destruct (N.eqb_spec c sep) as [->|Hne].
    + constructor; [tauto|exact IH].
    + destruct (split sep r) as [|h t].
      * constructor; [|constructor]. simpl. intros [E|[]]. congruence.
      * inversion IH as [|? ? Hh Ht]; subst. constructor; [|exact Ht].
        simpl. intros [E|Hin]; [congruence|contradiction].
Qed.

Lemma join_split (sep : N) (s : str) : join sep (split sep s) = s.
Proof.
  induction s as [|c r IH]; simpl; [reflexivity|].
  destruct (N.eqb_spec c sep) as [->|Hne].
  - pose proof (split_not_nil sep r) as Hn.
    destruct (split sep r) as [|h t]; [congruence|].
    simpl in *. now rewrite IH.
  - pose proof (split_not_nil sep r) as Hn.
    destruct (split sep r) as [|h t]; [congruence|].
    destruct t; simpl in *; now rewrite <- IH.
Qed.

(** The labels that line 190 makes of the text of [--colors]: one more
    than the text has commas, each without white space at its ends and
    without comma; joining the fields with commas gives the text back. *)
Theorem colour_labels_of_text (s : str) :
  join 44%N (split 44%N s) = s
  /\ List.length (map strip (split 44%N s))
     = S (count_occ N.eq_dec s 44%N)
  /\ Forall (fun label => stripped label /\ ~ In 44%N label)
            (map strip (split 44%N s)).
Proof.
  split; [apply join_split|]. split.
  - rewrite length_map. apply split_length.
  - apply Forall_map.
    eapply Forall_impl; [|apply split_no_sep].
    intros f Hf. split; [apply strip_stripped|].
    destruct (strip_split f) as (pre & post & E & _).
    intros Hin. apply Hf. rewrite E.
    apply in_or_app. right. apply in_or_app. now left.
Qed.

(* ===================================================================== *)
(** ** Further properties: a book without rows *)
(* ===================================================================== *)

(** When the answer of the query holds no row of the chosen book, the
    document is the front matter and the title line of the book alone: no
    heading follows, and [min] is never asked for the least of nothing. *)
Theorem export_markdown_without_items (float_repr : float -> str)
  (w : World) (self : ExportKobo) (book_id : Z) (debug : bool)
  (colors : option (list str)) (rows : list item_row) :
  1 <= book_id <= Z.of_nat (List.length (books self)) ->
  path_exists w (db_path self) = true ->
  execute w ItemRows (db_path self) (select_query (db_version self))
  = inr rows ->
  (forall book,
      nth_error (books self) (Z.to_nat (book_id - 1)) = Some book ->
      filter (of_book book) rows = []) ->
  exists book,
    nth_error (books self) (Z.to_nat (book_id - 1)) = Some book
    /\ export_markdown float_repr w self book_id debug colors
       = ([Stdout (to_markdown book)], inr tt).
Proof.
  intros Hr Hp Hx Hnone.
  destruct (export_markdown_in_range float_repr w self book_id debug colors
              rows Hr Hp Hx) as (book & En & Ex).
  exists book. split; [exact En|].
  rewrite Ex, items_of_rows, (Hnone book En). simpl.
  now rewrite app_nil_r.
Qed.

Lemma export_markdown_without_items_witness :
  exists book,
    nth_error (books (foo_kobo 175)) (Z.to_nat (1 - 1)) = Some book
    /\ export_markdown float_repr_example (foo_world 175 [row_other])
         (foo_kobo 175) 1 true None
       = ([Stdout (to_markdown book)], inr tt).
Proof.
  apply (export_markdown_without_items float_repr_example
           (foo_world 175 [row_other]) (foo_kobo 175) 1 true None
           [row_other]).
  - simpl. lia.
  - reflexivity.
  - reflexivity.
  - intros book E. simpl in E. injection E as <-. reflexivity.
Defined.
